(** * AgentsAndFunctions/function_to_schema.py

    A shallow embedding of [function_to_schema] and
    [is_function_schema_compatible], and the properties of the two
    functions that the specification of the repository states.

    Both functions look at a Python callable only through reflection:
    [callable(func)], [inspect.signature(func)], [inspect.getsource(func)],
    [func.__name__] and [func.__doc__].  A callable is therefore modelled
    by the record of what these five observations give, each of which can
    be an ordinary value or a raised exception.  The annotations and the
    defaults that a signature holds are arbitrary objects, which the
    functions compare, look up, test and print: they are modelled by what
    these operations give, which can be an exception too.

    An object is taken to answer an operation the same way each time it
    is asked, and the exceptions are those of the classes of [exn_class]
    below, which all derive from [Exception]. *)

From Stdlib Require Import String Ascii List Bool Arith Lia.
Import ListNotations.
Local Open Scope string_scope.

(** ** Exceptions and outcomes *)

(** The classes of the exceptions that the observations and the two
    functions raise, each standing for its subclasses too.  [ValueError]
    is the one that the handlers of lines 24 and 98 catch; all of them
    derive from [Exception], which the handler of line 136 catches.
    [KeyError] is not among them: nothing that the two functions call
    raises it of its own, and the handler of lines 33-36, which would
    catch it, is left out with it. *)
Inductive exn_class : Type :=
| ValueError
| TypeError
| OSError
| AttributeError.

(** An exception object: its class and what [str(e)] gives. *)
Record exn : Type := mk_exn { exn_cls : exn_class; exn_str : string }.

(** What evaluating a Python expression gives: a value, or an exception
    that propagates. *)
Inductive outcome (A : Type) : Type :=
| Return (a : A)
| Raise (e : exn).
Arguments Return {A} a.
Arguments Raise {A} e.

(** ** Monads

    [outcome] is the exception monad of [function_to_schema]; the checker
    also appends to its local list [disqualifiers], and runs in [Run]: a
    store of disqualifiers threaded through the statements, with
    exceptions. *)

Class Monad (M : Type -> Type) : Type :=
  { ret : forall {A : Type}, A -> M A;
    bind : forall {A B : Type}, M A -> (A -> M B) -> M B }.

Declare Scope py_scope.
Notation "x <- c ;; k" := (bind c (fun x => k))
  (at level 61, c at next level, right associativity) : py_scope.
Notation "c ;; k" := (bind c (fun _ => k))
  (at level 61, right associativity) : py_scope.
Local Open Scope py_scope.

#[export] Instance Monad_outcome : Monad outcome :=
  { ret := fun A a => Return a;
    bind := fun A B c k =>
              match c with
              | Return a => k a
              | Raise e => Raise e
              end }.

Definition Run (A : Type) : Type := list string -> outcome A * list string.

#[export] Instance Monad_Run : Monad Run :=
  { ret := fun A a => fun st => (Return a, st);
    bind := fun A B c k => fun st =>
              match c st with
              | (Return a, st') => k a st'
              | (Raise e, st') => (Raise e, st')
              end }.

(** [disqualifiers = l] *)
Definition assign (l : list string) : Run unit :=
  fun _ => (Return tt, l).

(** [disqualifiers.append(s)] *)
Definition append_disqualifier (s : string) : Run unit :=
  fun st => (Return tt, (st ++ [s])%list).

(** Reading the variable [disqualifiers]. *)
Definition disqualifiers : Run (list string) :=
  fun st => (Return st, st).

(** An expression that may raise, evaluated inside the checker. *)
Definition eval {A : Type} (c : outcome A) : Run A :=
  fun st => (c, st).

(** [for x in l: body(x)] *)
Fixpoint for_each {A : Type} (l : list A) (body : A -> Run unit) : Run unit :=
  match l with
  | [] => ret tt
  | x :: l' => body x ;; for_each l' body
  end.


(** ** Annotations *)

(** The classes that the source names: the keys of [type_map], the four
    classes of the reject-list, and the sentinel [inspect._empty] that
    marks an absent annotation or default. *)
Inductive pyclass : Type :=
| c_str | c_int | c_float | c_bool | c_list | c_dict | c_NoneType
| c_tuple | c_set | c_complex | c_datetime
| c_empty.

(** Any other object, by what the operations that the two functions apply
    to an annotation give on it.  Each of them can run code of the
    object: [==] and [!=] its [__eq__] and [__ne__], a dictionary lookup
    its [__hash__] and then [__eq__], [issubclass] the walk of its bases,
    an f-string its [__format__]; so each can raise, and none is bound to
    agree with another.  [isinstance(a, type)] reads the type of the
    object and its [__class__], and is taken not to raise. *)
Record Observed : Type := mk_Observed
  { obs_eq_empty : outcome bool;          (* a == inspect._empty, as a truth value *)
    obs_ne_empty : outcome bool;          (* a != inspect._empty, as a truth value *)
    obs_lookup : outcome (option string); (* what looking a up in type_map finds *)
    obs_is_type : bool;                   (* isinstance(a, type) *)
    obs_subclass_rejected : outcome bool; (* issubclass(a, (tuple, set, complex, datetime.datetime)) *)
    obs_str : outcome string }.           (* f"{a}" *)

(** An annotation object: one of the classes above, or another object. *)
Inductive annotation : Type :=
| Class (c : pyclass)
| Object (o : Observed).

Definition inspect_empty : annotation := Class c_empty.

Definition pyclass_eq_dec (c d : pyclass) : {c = d} + {c <> d}.
Proof. decide equality. Defined.

Definition class_qualname (c : pyclass) : string :=
  match c with
  | c_str => "str" | c_int => "int" | c_float => "float"
  | c_bool => "bool" | c_list => "list" | c_dict => "dict"
  | c_NoneType => "NoneType"
  | c_tuple => "tuple" | c_set => "set" | c_complex => "complex"
  | c_datetime => "datetime.datetime"
  | c_empty => "inspect._empty"
  end.

Definition reject_listed (c : pyclass) : bool :=
  match c with
  | c_tuple | c_set | c_complex | c_datetime => true
  | _ => false
  end.

(** [a == inspect._empty]: classes compare by identity. *)
Definition eq_empty (a : annotation) : outcome bool :=
  match a with
  | Class c => Return (if pyclass_eq_dec c c_empty then true else false)
  | Object o => obs_eq_empty o
  end.

(** [a != inspect._empty] *)
Definition ne_empty (a : annotation) : outcome bool :=
  match a with
  | Class c => Return (if pyclass_eq_dec c c_empty then false else true)
  | Object o => obs_ne_empty o
  end.

(** [f"{a}"], as the f-strings of the checker format an annotation. *)
Definition str_annotation (a : annotation) : outcome string :=
  match a with
  | Class c => Return ("<class '" ++ class_qualname c ++ "'>")
  | Object o => obs_str o
  end.

(** [isinstance(a, type)] *)
Definition isinstance_type (a : annotation) : bool :=
  match a with
  | Class _ => true
  | Object o => obs_is_type o
  end.

(** [issubclass(a, (tuple, set, complex, datetime.datetime))] *)
Definition issubclass_rejected (a : annotation) : outcome bool :=
  match a with
  | Class c => Return (reject_listed c)
  | Object o => obs_subclass_rejected o
  end.

(** A class other than the twelve above, with the equality, the hash and
    the [issubclass] of [type]: [text] is its [str()], which a metaclass
    can change (["<enum 'Corner'>"] for an [Enum] class), [rejected] tells
    whether it derives from a class of the reject-list. *)
Definition ordinary_class (text : string) (rejected : bool) : annotation :=
  Object
    {| obs_eq_empty := Return false;
       obs_ne_empty := Return true;
       obs_lookup := Return None;
       obs_is_type := true;
       obs_subclass_rejected := Return rejected;
       obs_str := Return text |}.

(** What [issubclass] raises when its first argument is not a class. *)
Definition not_a_class : exn :=
  mk_exn TypeError "issubclass() arg 1 must be a class".

(** An object that is not a class, is hashable and compares by identity:
    a string, or a construct of [typing] such as [typing.List[int]]. *)
Definition ordinary_object (text : string) : annotation :=
  Object
    {| obs_eq_empty := Return false;
       obs_ne_empty := Return true;
       obs_lookup := Return None;
       obs_is_type := false;
       obs_subclass_rejected := Raise not_a_class;
       obs_str := Return text |}.

(** An object that is not a class and cannot be hashed, such as the list
    [[int]]: a lookup raises [TypeError]. *)
Definition unhashable (text type_name : string) : annotation :=
  Object
    {| obs_eq_empty := Return false;
       obs_ne_empty := Return true;
       obs_lookup :=
         Raise (mk_exn TypeError ("unhashable type: '" ++ type_name ++ "'"));
       obs_is_type := false;
       obs_subclass_rejected := Raise not_a_class;
       obs_str := Return text |}.

(** ** Dictionaries

    A Python [dict] keeps its keys in insertion order; assigning to a key
    that is present replaces the value in place. *)
Section Dict.
Context {K V : Type} (K_eq_dec : forall x y : K, {x = y} + {x <> y}).

Fixpoint dict_get (d : list (K * V)) (k : K) : option V :=
  match d with
  | [] => None
  | (k', v) :: d' => if K_eq_dec k k' then Some v else dict_get d' k
  end.

(** [d[k] = v] *)
Fixpoint dict_set (d : list (K * V)) (k : K) (v : V) : list (K * V) :=
  match d with
  | [] => [(k, v)]
  | (k', v') :: d' =>
      if K_eq_dec k k' then (k, v) :: d' else (k', v') :: dict_set d' k v
  end.

Definition dict_keys (d : list (K * V)) : list K := map fst d.
End Dict.

(** The table that both functions define (lines 12-20 and 79-87). *)
Definition type_map : list (pyclass * string) :=
  [ (c_str, "string");
    (c_int, "integer");
    (c_float, "number");
    (c_bool, "boolean");
    (c_list, "array");
    (c_dict, "object");
    (c_NoneType, "null") ].

(** Looking an annotation up in [type_map]: the value found under it, if
    any.  The lookup hashes the annotation, and raises if that does. *)
Definition lookup (a : annotation) : outcome (option string) :=
  match a with
  | Class c => Return (dict_get pyclass_eq_dec type_map c)
  | Object o => obs_lookup o
  end.

(** [a in type_map] *)
Definition in_type_map (a : annotation) : outcome bool :=
  found <- lookup a ;;
  ret (match found with
       | Some _ => true
       | None => false
       end).

(** ** Signatures *)

Inductive kind : Type :=
| POSITIONAL_ONLY
| POSITIONAL_OR_KEYWORD
| VAR_POSITIONAL
| KEYWORD_ONLY
| VAR_KEYWORD.

(** The default of a parameter: [inspect.Parameter.empty], which is
    [inspect._empty], or a value, given by its [repr] and by what
    [value == inspect._empty] gives as a truth value.  For most values
    that is [False]; [unittest.mock.ANY] answers [True], and the
    comparison of a [numpy] array has no truth value. *)
Inductive default_value : Type :=
| no_default
| value (repr : string) (equals_empty : outcome bool).

(** A value with the equality of [object]. *)
Definition ordinary (repr : string) : default_value :=
  value repr (Return false).

(** An [inspect.Parameter] ([Parameter] is a reserved word here). *)
Record Param : Type := mk_Param
  { p_name : string;
    p_annotation : annotation;
    p_default : default_value;
    p_kind : kind }.

(** An [inspect.Signature]: [parameters] lists
    [signature.parameters.values()] in order. *)
Record Signature : Type := mk_Signature
  { parameters : list Param;
    return_annotation : annotation }.

(** The names of the parameters of a signature are pairwise distinct:
    [inspect.Signature] refuses to be built otherwise, and so does the
    compiler for a [def]. *)
Definition distinct_names (s : Signature) : Prop :=
  NoDup (map p_name (parameters s)).

(** ** Callables, as reflection shows them *)

(** [func.__doc__]: [None], a string, or another object, given by its
    truth value and by the exception that looking up [strip] on it
    raises ([AttributeError] for an [int]).  Objects that are not strings
    and have a [strip] method, such as [bytes], are left out. *)
Inductive docstring : Type :=
| DocNone
| DocStr (text : string)
| DocObject (truth : outcome bool) (no_strip : exn).

Record FunctionObject : Type := mk_FunctionObject
  { is_callable : bool;                 (* callable(func) *)
    fn_name : outcome string;           (* func.__name__ *)
    fn_doc : docstring;                 (* func.__doc__ *)
    fn_signature : outcome Signature;   (* inspect.signature(func) *)
    fn_source : outcome string }.       (* inspect.getsource(func) *)


(** ** Strings

    A Python [str] is held as the bytes of its UTF-8 encoding. *)

(** The white space of ASCII. *)
Definition is_space (c : ascii) : bool :=
  let n := nat_of_ascii c in
  (((9 <=? n) && (n <=? 13)) || ((28 <=? n) && (n <=? 32)))%nat.

Definition utf8 (bytes : list nat) : string :=
  string_of_list_ascii (map ascii_of_nat bytes).

(** The characters that [str.strip()] removes, those for which
    [str.isspace()] holds: U+0009 to U+000D, U+001C to U+0020, U+0085,
    U+00A0, U+1680, U+2000 to U+200A, U+2028, U+2029, U+202F, U+205F and
    U+3000, each as its UTF-8 bytes. *)
Definition white_space : list string :=
  map utf8
    [ [9]; [10]; [11]; [12]; [13]; [28]; [29]; [30]; [31]; [32];
      [194; 133]; [194; 160]; [225; 154; 128];
      [226; 128; 128]; [226; 128; 129]; [226; 128; 130]; [226; 128; 131];
      [226; 128; 132]; [226; 128; 133]; [226; 128; 134]; [226; 128; 135];
      [226; 128; 136]; [226; 128; 137]; [226; 128; 138];
      [226; 128; 168]; [226; 128; 169]; [226; 128; 175];
      [226; 129; 159]; [227; 128; 128] ].

Fixpoint drop (n : nat) (s : string) : string :=
  match n, s with
  | S n', String _ s' => drop n' s'
  | _, _ => s
  end.

(** What follows the first character of [s], when that character is one
    of [chars]. *)
Definition after_one_of (chars : list string) (s : string) : option string :=
  match find (fun char => String.prefix char s) chars with
  | Some char => Some (drop (String.length char) s)
  | None => None
  end.

(** Removing the leading characters that are among [chars]; [fuel] bounds
    their number. *)
Fixpoint lstrip_from (chars : list string) (fuel : nat) (s : string)
  : string :=
  match fuel with
  | O => s
  | S fuel' =>
      match after_one_of chars s with
      | Some s' => lstrip_from chars fuel' s'
      | None => s
      end
  end.

Definition lstrip_of (chars : list string) (s : string) : string :=
  lstrip_from chars (String.length s) s.

Definition reverse (s : string) : string :=
  string_of_list_ascii (rev (list_ascii_of_string s)).

(** [s.lstrip()] *)
Definition lstrip (s : string) : string := lstrip_of white_space s.

(** [s.rstrip()]: the same from the end, on the bytes in reverse. *)
Definition rstrip (s : string) : string :=
  reverse (lstrip_of (map reverse white_space) (reverse s)).

(** [s.strip()] *)
Definition strip (s : string) : string := rstrip (lstrip s).

(** [needle in hay] *)
Fixpoint contains (needle hay : string) : bool :=
  String.prefix needle hay
  || match hay with
     | EmptyString => false
     | String _ hay' => contains needle hay'
     end.

(** [sep.join(l)] *)
Definition join (sep : string) (l : list string) : string :=
  String.concat sep l.

(** ** The schema *)

(** [{"type": param_type}] *)
Record Property : Type := mk_Property { prop_type : string }.

(** The value under ["parameters"]. *)
Record ParametersSchema : Type := mk_ParametersSchema
  { ps_type : string;
    properties : list (string * Property);
    required : list string }.

(** The value under ["function"]. *)
Record FunctionSchema : Type := mk_FunctionSchema
  { name : string;
    description : string;
    fs_parameters : ParametersSchema }.

Record Schema : Type := mk_Schema
  { schema_type : string;
    function : FunctionSchema }.

(** ** [function_to_schema] (lines 11-56) *)

(** Line 32: [type_map.get(a, "string")].  [dict.get] raises no
    [KeyError] of its own, and no exception of [exn_class] is one, so the
    handler of lines 33-36 has nothing to catch; what the lookup raises,
    such as the [TypeError] of an annotation that cannot be hashed,
    leaves the function. *)
Definition schema_type_of (a : annotation) : outcome string :=
  found <- lookup a ;;
  ret (match found with
       | Some param_type => param_type
       | None => "string"
       end).

(** Lines 29-37: the loop, from the dictionary built so far. *)
Fixpoint schema_properties_from (params : list Param)
  (parameters : list (string * Property))
  : outcome (list (string * Property)) :=
  match params with
  | [] => ret parameters
  | param :: params' =>
      param_type <- schema_type_of (p_annotation param) ;;
      schema_properties_from params'
        (dict_set string_dec parameters (p_name param)
           (mk_Property param_type))
  end.

Definition schema_properties (signature : Signature)
  : outcome (list (string * Property)) :=
  schema_properties_from (parameters signature) [].

(** [param.default == inspect._empty], as the truth value that the [if]
    of line 42 takes. *)
Definition default_is_empty (param : Param) : outcome bool :=
  match p_default param with
  | no_default => Return true
  | value _ equals_empty => equals_empty
  end.

(** Lines 39-43: the list comprehension. *)
Fixpoint schema_required_of (params : list Param) : outcome (list string) :=
  match params with
  | [] => ret []
  | param :: params' =>
      is_empty <- default_is_empty param ;;
      names <- schema_required_of params' ;;
      ret (if is_empty : bool then p_name param :: names else names)
  end.

Definition schema_required (signature : Signature) : outcome (list string) :=
  schema_required_of (parameters signature).

(** Line 49: [(func.__doc__ or "").strip()] *)
Definition doc_stripped (func : FunctionObject) : outcome string :=
  match fn_doc func with
  | DocNone => ret (strip "")
  | DocStr text => ret (strip text)
  | DocObject truth no_strip =>
      truthy <- truth ;;
      if truthy : bool then Raise no_strip else ret (strip "")
  end.

Definition function_to_schema (func : FunctionObject) : outcome Schema :=
  match fn_signature func with
  | Raise e =>
      match exn_cls e with
      | ValueError =>
          func_name <- fn_name func ;;
          Raise (mk_exn ValueError
                   ("Failed to get signature for function " ++ func_name
                    ++ ": " ++ exn_str e))
      | _ => Raise e
      end
  | Return signature =>
      parameters <- schema_properties signature ;;
      required <- schema_required signature ;;
      func_name <- fn_name func ;;
      description <- doc_stripped func ;;
      ret (mk_Schema "function"
             (mk_FunctionSchema func_name description
                (mk_ParametersSchema "object" parameters required)))
  end.

(** ** [is_function_schema_compatible] (lines 60-143) *)

(** The second component of a returned tuple: the joined reasons, or the
    schema. *)
Inductive payload : Type :=
| Reasons (text : string)
| Parsed (schema : Schema).

(** What the checker returns: a plain boolean, or a tuple of a boolean and
    a payload. *)
Inductive result : Type :=
| Plain (compatible : bool)
| Pair (compatible : bool) (p : payload).

(** [param.kind in {VAR_POSITIONAL, VAR_KEYWORD}] *)
Definition is_variadic (k : kind) : bool :=
  match k with
  | VAR_POSITIONAL | VAR_KEYWORD => true
  | _ => false
  end.

(** Step 3, lines 104-110: the body of the loop over the parameters. *)
Definition check_annotation (param : Param) : Run unit :=
  missing <- eval (eq_empty (p_annotation param)) ;;
  if missing : bool then
    append_disqualifier
      ("Parameter '" ++ p_name param ++ "' is missing a type annotation.")
  else
    known <- eval (in_type_map (p_annotation param)) ;;
    if negb known then
      if negb (isinstance_type (p_annotation param)) then
        text <- eval (str_annotation (p_annotation param)) ;;
        append_disqualifier
          ("Parameter '" ++ p_name param
           ++ "' has an unrecognized type annotation: " ++ text ++ ".")
      else
        rejected <- eval (issubclass_rejected (p_annotation param)) ;;
        if rejected : bool then
          text <- eval (str_annotation (p_annotation param)) ;;
          append_disqualifier
            ("Parameter '" ++ p_name param ++ "' has an unsupported type: "
             ++ text ++ ".")
        else ret tt
    else ret tt.

Definition variadic_reason : string :=
  "Function uses *args or **kwargs, which are not supported.".

(** Step 4, lines 113-114. *)
Definition check_variadic (signature : Signature) : Run unit :=
  if existsb (fun param => is_variadic (p_kind param)) (parameters signature)
  then append_disqualifier variadic_reason
  else ret tt.

Definition interactive_reason : string :=
  "Function contains an input() call, which requires user interaction.".

(** Step 5, lines 117-119.  [inspect.getsource] is called outside any
    [try]. *)
Definition check_interactive (func : FunctionObject) : Run unit :=
  source_code <- eval (fn_source func) ;;
  if contains "input(" source_code
  then append_disqualifier interactive_reason
  else ret tt.

(** Step 6, lines 122-126.  Both conditions stop at their first operand
    when it decides: [!=] is evaluated only for an annotation that is not
    in [type_map], and [issubclass] only for a class. *)
Definition check_return_annotation (signature : Signature) : Run unit :=
  known <- eval (in_type_map (return_annotation signature)) ;;
  present <- (if negb known
              then eval (ne_empty (return_annotation signature))
              else ret false : Run bool) ;;
  if present : bool then
    allowed <- (if isinstance_type (return_annotation signature)
                then
                  rejected <- eval (issubclass_rejected
                                      (return_annotation signature)) ;;
                  ret (negb rejected)
                else ret false : Run bool) ;;
    if allowed : bool then ret tt
    else
      text <- eval (str_annotation (return_annotation signature)) ;;
      append_disqualifier ("Return type '" ++ text ++ "' is unsupported.")
  else ret tt.

(** [not disqualifiers] *)
Definition not_ (l : list string) : bool :=
  match l with
  | [] => true
  | _ :: _ => false
  end.

(** Step 7, lines 129-143. *)
Definition return_results (func : FunctionObject) (and_parse verbose : bool)
  : Run result :=
  ds <- disqualifiers ;;
  let is_compatible := not_ ds in
  if is_compatible && and_parse then
    match function_to_schema func with
    | Return schema => ret (Pair true (Parsed schema))
    | Raise e =>
        ret (if verbose
             then Pair false
                    (Reasons
                       ("Function is structurally valid but failed to convert: "
                        ++ exn_str e))
             else Plain false)
    end
  else if verbose then ret (Pair is_compatible (Reasons (join "; " ds)))
  else ret (Plain is_compatible).

(** Steps 3 to 6, lines 101-126. *)
Definition checks (func : FunctionObject) (signature : Signature) : Run unit :=
  for_each (parameters signature) check_annotation ;;
  check_variadic signature ;;
  check_interactive func ;;
  check_return_annotation signature.

(** The body of the function, as a computation over the store of
    disqualifiers.  Line 89 binds [disqualifiers] to a fresh empty list;
    the dictionary [parameters] of line 102 is never read. *)
Definition is_function_schema_compatible_body
  (func : FunctionObject) (and_parse verbose : bool) : Run result :=
  assign [] ;;
  if negb (is_callable func) then
    ret (if verbose
         then Pair false (Reasons "Provided object is not a function.")
         else Plain false)
  else
    match fn_signature func with
    | Raise e =>
        match exn_cls e with
        | ValueError =>
            if verbose then
              func_name <- eval (fn_name func) ;;
              ret (Pair false
                     (Reasons
                        ("Could not retrieve signature for " ++ func_name
                         ++ ".")))
            else ret (Plain false)
        | _ => eval (Raise e)
        end
    | Return signature =>
        checks func signature ;;
        return_results func and_parse verbose
    end.

(** A call: the body run on a store of its own. *)
Definition is_function_schema_compatible
  (func : FunctionObject) (and_parse verbose : bool) : outcome result :=
  fst (is_function_schema_compatible_body func and_parse verbose []).

(** ** What the steps append

    A step of the checker only adds to the store, whether it returns or
    raises: what it does on a store is what it does on the empty one,
    with the store in front. *)

Definition appends {A : Type} (c : Run A) : Prop :=
  forall st, c st = (fst (c []), (st ++ snd (c []))%list).

(** The reasons that a step adds, read off the step itself. *)
Definition appended {A : Type} (c : Run A) : list string := snd (c []).

(** The list [disqualifiers] when steps 3 to 6 end, by reaching step 7 or
    by an exception. *)
Definition accumulated (func : FunctionObject) (signature : Signature)
  : list string :=
  appended (checks func signature).

(** ** Vocabulary of the specification *)



(** A reason about the return type: the f-string of line 126. *)
Definition is_return_reason (s : string) : bool :=
  String.prefix "Return type '" s.

(** The list [disqualifiers] when a call ends, by a return or by an
    exception. *)
Definition final_disqualifiers
  (func : FunctionObject) (and_parse verbose : bool) : list string :=
  snd (is_function_schema_compatible_body func and_parse verbose []).

(** A parameter that line 42 puts in [required]: the comparison of its
    default with [inspect._empty] is true. *)
Definition listed_as_required (param : Param) : bool :=
  match default_is_empty param with
  | Return is_empty => is_empty
  | Raise _ => false
  end.




(** An annotation that step 3 has nothing against: it does not compare
    equal to [inspect._empty], and it is a key of [type_map] or a class
    that derives from no reject-listed class. *)
Definition acceptable (a : annotation) : bool :=
  match eq_empty a with
  | Return false =>
      match in_type_map a with
      | Return true => true
      | Return false =>
          isinstance_type a
          && match issubclass_rejected a with
             | Return rejected => negb rejected
             | Raise _ => false
             end
      | Raise _ => false
      end
  | _ => false
  end.

(** A return annotation that step 6 has nothing against: a key of
    [type_map], an annotation that is not different from
    [inspect._empty], or a class that derives from no reject-listed
    class. *)
Definition acceptable_return (a : annotation) : bool :=
  match in_type_map a with
  | Return true => true
  | Return false =>
      match ne_empty a with
      | Return false => true
      | Return true =>
          isinstance_type a
          && match issubclass_rejected a with
             | Return rejected => negb rejected
             | Raise _ => false
             end
      | Raise _ => false
      end
  | Raise _ => false
  end.

(** A parameter that step 3 gives a reason for. *)
Definition offending (p : Param) : bool := negb (acceptable (p_annotation p)).

(** A return annotation that step 6 gives a reason for. *)
Definition offending_return (sig : Signature) : bool :=
  negb (acceptable_return (return_annotation sig)).

(** What a verbose result becomes when the reasons are left out. *)
Definition without_reasons (r : result) : result :=
  match r with
  | Pair b (Reasons _) => Plain b
  | _ => r
  end.

(** [1] for [True], [0] for [False]. *)
Definition count_of (b : bool) : nat := if b then 1 else 0.


(** The last character of a string. *)
Fixpoint last_char (s : string) : option ascii :=
  match s with
  | EmptyString => None
  | String c EmptyString => Some c
  | String _ s' => last_char s'
  end.

(** The first character of a string. *)
Definition first_char (s : string) : option ascii :=
  match s with
  | EmptyString => None
  | String c _ => Some c
  end.

(** The reasons of step 3, by kind. *)
Definition missing_reason (param_name : string) : string :=
  "Parameter '" ++ param_name ++ "' is missing a type annotation.".

Definition unrecognized_reason (param_name text : string) : string :=
  "Parameter '" ++ param_name ++ "' has an unrecognized type annotation: "
  ++ text ++ ".".

Definition unsupported_reason (param_name text : string) : string :=
  "Parameter '" ++ param_name ++ "' has an unsupported type: " ++ text ++ ".".

(** ** Sample callables *)

(** A parameter [n: a] without default. *)
Definition plain (n : string) (a : annotation) : Param :=
  mk_Param n a no_default POSITIONAL_OR_KEYWORD.

(** [def add_numbers(a: float, b: float): ...], defined in a module file. *)
Definition add_numbers : FunctionObject :=
  {| is_callable := true;
     fn_name := Return "add_numbers";
     fn_doc := DocStr "Adds two numbers.";
     fn_signature :=
       Return (mk_Signature
                 [plain "a" (Class c_float); plain "b" (Class c_float)]
                 inspect_empty);
     fn_source :=
       Return "def add_numbers(a: float, b: float): 'Adds two numbers.'; return a + b" |}.

(** [def get_weather(location): ...] of
    [chat_completion_tools_ONLINE_TEMPLATE.py]: its parameter has no
    annotation. *)
Definition get_weather : FunctionObject :=
  {| is_callable := true;
     fn_name := Return "get_weather";
     fn_doc := DocNone;
     fn_signature :=
       Return (mk_Signature [plain "location" inspect_empty] inspect_empty);
     fn_source :=
       Return "def get_weather(location): return 'The weather in ' + location + ' is sunny.'" |}.

(** What [inspect.getsource] raises for a function that [exec] defined, as
    [create_tools_from_analysis] does at line 311: no file holds its
    source. *)
Definition no_source : exn := mk_exn OSError "could not get source code".

(** A function that [exec] defined, from its name and signature. *)
Definition exec_defined (n : string) (sig : Signature) : FunctionObject :=
  {| is_callable := true;
     fn_name := Return n;
     fn_doc := DocNone;
     fn_signature := Return sig;
     fn_source := Raise no_source |}.

(** [def process_data(data: list) -> dict: ...], the first tool of
    [extract_tools_from_analysis]. *)
Definition process_data : FunctionObject :=
  exec_defined "process_data"
    (mk_Signature [plain "data" (Class c_list)] (Class c_dict)).

(** [def plot(point: tuple) -> dict: ...] *)
Definition plot : FunctionObject :=
  exec_defined "plot"
    (mk_Signature [plain "point" (Class c_tuple)] (Class c_dict)).

(** A function that [exec] defined with the parameters [*args] and
    [**kwargs], both without annotation, and the return annotation
    [str]. *)
Definition log : FunctionObject :=
  exec_defined "log"
    (mk_Signature
       [mk_Param "args" inspect_empty no_default VAR_POSITIONAL;
        mk_Param "kwargs" inspect_empty no_default VAR_KEYWORD]
       (Class c_str)).

(** [def divmod_(a: int, b: int) -> tuple: ...] *)
Definition divmod_ : FunctionObject :=
  exec_defined "divmod_"
    (mk_Signature [plain "a" (Class c_int); plain "b" (Class c_int)]
       (Class c_tuple)).

(** An instance of a decorator class that keeps the decorated function
    under [__wrapped__] and copies nothing else: [inspect.signature] and
    [inspect.getsource] follow [__wrapped__], the instance has no
    [__name__]. *)
Definition wrapped_tool : FunctionObject :=
  {| is_callable := true;
     fn_name :=
       Raise (mk_exn AttributeError
                "'tool' object has no attribute '__name__'");
     fn_doc := DocNone;
     fn_signature :=
       Return (mk_Signature
                 [plain "a" (Class c_float); plain "b" (Class c_float)]
                 (Class c_float));
     fn_source :=
       Return "def add_numbers(a: float, b: float) -> float: return a + b" |}.

(** [def ask(prompt: str) -> str: return input(prompt)] *)
Definition ask : FunctionObject :=
  {| is_callable := true;
     fn_name := Return "ask";
     fn_doc := DocNone;
     fn_signature :=
       Return (mk_Signature [plain "prompt" (Class c_str)] (Class c_str));
     fn_source := Return "def ask(prompt: str) -> str: return input(prompt)" |}.

(** [def greet(name: str, greeting: str = 'Hello') -> str: ...], with a
    docstring on lines of its own. *)
Definition greet : FunctionObject :=
  {| is_callable := true;
     fn_name := Return "greet";
     fn_doc := DocStr "
    Greets somebody.
    ";
     fn_signature :=
       Return (mk_Signature
                 [plain "name" (Class c_str);
                  mk_Param "greeting" (Class c_str) (ordinary "'Hello'")
                    POSITIONAL_OR_KEYWORD]
                 (Class c_str));
     fn_source :=
       Return "def greet(name: str, greeting: str = 'Hello') -> str: return greeting + ', ' + name" |}.

(** The integer [42]: not callable. *)
Definition forty_two : FunctionObject :=
  {| is_callable := false;
     fn_name :=
       Raise (mk_exn AttributeError
                "'int' object has no attribute '__name__'");
     fn_doc := DocStr "int([x]) -> integer";
     fn_signature := Raise (mk_exn TypeError "42 is not a callable object");
     fn_source :=
       Raise (mk_exn TypeError
                "module, class, method, function, traceback, frame, or code object was expected, got int") |}.

(** The builtin [max], which carries no signature. *)
Definition builtin_max : FunctionObject :=
  {| is_callable := true;
     fn_name := Return "max";
     fn_doc := DocStr "max(iterable, *[, default=obj, key=func]) -> value";
     fn_signature :=
       Raise (mk_exn ValueError
                "no signature found for builtin <built-in function max>");
     fn_source :=
       Raise (mk_exn TypeError
                "module, class, method, function, traceback, frame, or code object was expected, got builtin_function_or_method") |}.


(** [def check(text: str) -> bool: return validate_input(text)]: it calls
    no [input], but a function whose name ends in [input]. *)
Definition check : FunctionObject :=
  {| is_callable := true;
     fn_name := Return "check";
     fn_doc := DocNone;
     fn_signature :=
       Return (mk_Signature [plain "text" (Class c_str)] (Class c_bool));
     fn_source :=
       Return "def check(text: str) -> bool: return validate_input(text)" |}.

(** [def move(point: Point, by: float) -> Point: ...], defined in a module
    file, with [Point] a class of the module [geometry] that derives from
    [object] only. *)
Definition move : FunctionObject :=
  {| is_callable := true;
     fn_name := Return "move";
     fn_doc := DocStr "Moves a point.";
     fn_signature :=
       Return (mk_Signature
                 [plain "point" (ordinary_class "<class 'geometry.Point'>" false);
                  plain "by" (Class c_float)]
                 (ordinary_class "<class 'geometry.Point'>" false));
     fn_source :=
       Return "def move(point: Point, by: float) -> Point: return Point(point.x + by, point.y + by)" |}.


(** [def total(values: [int]) -> int: ...], defined in a module file: the
    annotation of [values] is a list. *)
Definition total : FunctionObject :=
  {| is_callable := true;
     fn_name := Return "total";
     fn_doc := DocNone;
     fn_signature :=
       Return (mk_Signature
                 [plain "values" (unhashable "[<class 'int'>]" "list")]
                 (Class c_int));
     fn_source := Return "def total(values: [int]) -> int: return sum(values)" |}.

(** [def draw(point: tuple, label: str = '') -> dict: ...], defined in a
    module file. *)
Definition draw : FunctionObject :=
  {| is_callable := true;
     fn_name := Return "draw";
     fn_doc := DocStr "Draws a point.";
     fn_signature :=
       Return (mk_Signature
                 [plain "point" (Class c_tuple);
                  mk_Param "label" (Class c_str) (ordinary "''")
                    POSITIONAL_OR_KEYWORD]
                 (Class c_dict));
     fn_source :=
       Return "def draw(point: tuple, label: str = '') -> dict: return {'at': list(point), 'label': label}" |}.


(** The function [survey] of a module file: it takes the questions as
    variadic positional parameters without annotation, then
    [scale: Tuple[int, int]] and [origin: Pixel], returns a [tuple] and
    calls [input]; [Tuple] is the one of [typing] and [Pixel] a named
    tuple of the module [screen]. *)
Definition survey : FunctionObject :=
  {| is_callable := true;
     fn_name := Return "survey";
     fn_doc := DocNone;
     fn_signature :=
       Return (mk_Signature
                 [mk_Param "questions" inspect_empty no_default VAR_POSITIONAL;
                  mk_Param "scale" (ordinary_object "typing.Tuple[int, int]")
                    no_default KEYWORD_ONLY;
                  mk_Param "origin" (ordinary_class "<class 'screen.Pixel'>" true)
                    no_default KEYWORD_ONLY]
                 (Class c_tuple));
     fn_source :=
       Return "def survey(*questions, scale: Tuple[int, int], origin: Pixel) -> tuple: return tuple(input(q) for q in questions)" |}.

(** * The functions around the checker (lines 146-372)

    The remaining functions of the file talk to the outside: the terminal,
    the file system, the OpenAI client and [exec].  What the outside
    answers is a parameter, the [World]; what the functions do to it is
    recorded, in order, as a trace of events. *)

(** The line feed. *)
Definition nl : string := String (ascii_of_nat 10) EmptyString.

(** An exception of any class: the name of the class, [str(e)], and
    whether the class derives from [Exception], so that [except Exception]
    catches it; [SystemExit] and [KeyboardInterrupt] do not. *)
Record exception : Type := mk_exception
  { exc_class : string;
    exc_str : string;
    exc_is_Exception : bool }.

Definition exn_class_name (c : exn_class) : string :=
  match c with
  | ValueError => "ValueError"
  | TypeError => "TypeError"
  | OSError => "OSError"
  | AttributeError => "AttributeError"
  end.

(** The exceptions of the first part are of this kind. *)
Definition of_exn (e : exn) : exception :=
  mk_exception (exn_class_name (exn_cls e)) (exn_str e) true.

Inductive io_outcome (A : Type) : Type :=
| Done (a : A)
| Failed (e : exception).
Arguments Done {A} a.
Arguments Failed {A} e.

(** The keyword arguments of [client.chat.completions.create];
    [temperature] keeps the literal as it is written. *)
Record Request : Type := mk_Request
  { model : string;
    messages : list (string * string);   (* role, content *)
    temperature : string;
    max_tokens : nat }.

Inductive event : Type :=
| Printed (text : string)          (* print(text) *)
| Asked (prompt : string)          (* input(prompt) *)
| ClientCreated                    (* openai.OpenAI() *)
| Requested (request : Request)    (* client.chat.completions.create(...) *)
| Executed (code : string)         (* exec(code, exec_globals) *)
| FileRead (path : string)         (* open(path, "r"), then read() *)
| FileWritten (path content : string).   (* open(path, "w"), then the writes *)

(** What the outside answers: the line that [input(prompt)] returns for
    each prompt; what [openai.OpenAI()] does; for a request,
    [response.choices[0].message.content], a string or [None]; for a text,
    what [exec] of it does and then [exec_globals.values()] in order, each
    value as reflection shows it; [os.path.exists]; reading a file; opening
    a file for writing. *)
Record World : Type := mk_World
  { stdin : string -> io_outcome string;
    new_client : io_outcome unit;
    completion : Request -> io_outcome (option string);
    exec_values : string -> io_outcome (list FunctionObject);
    path_exists : string -> bool;
    read_text : string -> io_outcome string;
    open_for_writing : string -> io_outcome unit }.

Definition IO (A : Type) : Type :=
  World -> list event -> io_outcome A * list event.

#[export] Instance Monad_IO : Monad IO :=
  { ret := fun A a => fun _ tr => (Done a, tr);
    bind := fun A B c k => fun w tr =>
              match c w tr with
              | (Done a, tr') => k a w tr'
              | (Failed e, tr') => (Failed e, tr')
              end }.

(** [raise e] *)
Definition raise {A : Type} (e : exception) : IO A :=
  fun _ tr => (Failed e, tr).

(** [try: c / except Exception as e: handler(e)] *)
Definition try_except {A : Type} (c : IO A) (handler : exception -> IO A)
  : IO A :=
  fun w tr =>
    match c w tr with
    | (Done a, tr') => (Done a, tr')
    | (Failed e, tr') =>
        if exc_is_Exception e then handler e w tr' else (Failed e, tr')
    end.

(** A call into the first part. *)
Definition call {A : Type} (c : outcome A) : IO A :=
  fun _ tr =>
    match c with
    | Return a => (Done a, tr)
    | Raise e => (Failed (of_exn e), tr)
    end.

Definition print (text : string) : IO unit :=
  fun _ tr => (Done tt, (tr ++ [Printed text])%list).

Definition input (prompt : string) : IO string :=
  fun w tr => (stdin w prompt, (tr ++ [Asked prompt])%list).

Definition OpenAI : IO unit :=
  fun w tr => (new_client w, (tr ++ [ClientCreated])%list).

Definition chat_completions_create (request : Request) : IO (option string) :=
  fun w tr => (completion w request, (tr ++ [Requested request])%list).

(** [exec(code, exec_globals)] with [exec_globals] empty, and then
    [exec_globals.values()].  [exec] refuses [None]. *)
Definition exec (code : option string) : IO (list FunctionObject) :=
  match code with
  | Some text =>
      fun w tr => (exec_values w text, (tr ++ [Executed text])%list)
  | None =>
      raise (mk_exception "TypeError"
               "exec() arg 1 must be a string, bytes or code object" true)
  end.

(** [print(x)] for [x] a string or [None]. *)
Definition str_optional (x : option string) : string :=
  match x with
  | Some text => text
  | None => "None"
  end.

(** [s.lower()], on the letters of ASCII.  Of the other characters, only
    U+0130 and U+212A have a lower case with an ASCII letter in it, [i]
    and [k]: a comparison of the result with ["y"] is not affected. *)
Definition lower_char (c : ascii) : ascii :=
  let n := nat_of_ascii c in
  if ((65 <=? n) && (n <=? 90))%nat then ascii_of_nat (n + 32) else c.

Fixpoint lower (s : string) : string :=
  match s with
  | EmptyString => EmptyString
  | String c s' => String (lower_char c) (lower s')
  end.

(** [s.replace(old, new)] for [old] not empty: the occurrences of [old]
    are replaced from left to right, without overlap.  [skip] counts the
    characters of the occurrence being replaced that are still to pass. *)
Fixpoint replace_from (old new : string) (skip : nat) (s : string) : string :=
  match s with
  | EmptyString => EmptyString
  | String c s' =>
      match skip with
      | S k => replace_from old new k s'
      | O =>
          if String.prefix old s
          then new ++ replace_from old new (String.length old - 1) s'
          else String c (replace_from old new 0 s')
      end
  end.

Definition replace (old new s : string) : string := replace_from old new 0 s.

(** ** [analyze_and_improve_function] (lines 146-200) *)

Definition improve_system_prompt : string :=
  "You are an expert Python developer with deep knowledge of OpenAI's function calling system." ++ nl
  ++ "First, clearly explain how the function_to_schema conversion process works:" ++ nl
  ++ "- It converts Python functions into JSON-compatible schemas." ++ nl
  ++ "- It extracts the function name, docstring, parameters, and required fields." ++ nl
  ++ "- It maps Python types to JSON schema types." ++ nl
  ++ "- It does NOT support *args, **kwargs, interactive input(), or non-serializable types like datetime, complex, or tuples." ++ nl
  ++ nl
  ++ "Now, your role:" ++ nl
  ++ "1️⃣ The user will submit a Python function." ++ nl
  ++ "2️⃣ Your job is to analyze it and determine its purpose." ++ nl
  ++ "3️⃣ Check if it is currently compatible with function_to_schema." ++ nl
  ++ "4️⃣ If it is NOT compatible, explain why and suggest improvements." ++ nl
  ++ "5️⃣ In the second reasoning pass, provide a fully revised function that is compatible with function_to_schema." ++ nl
  ++ "6️⃣ Make the function improvements clear, while maintaining the original intent of the function." ++ nl
  ++ "7️⃣ Ensure that all output is structured, clear, and readable." ++ nl.

Definition analyze_and_improve_function (func : FunctionObject)
  : IO (option string) :=
  match fn_source func with
  | Raise e => ret (Some ("Error retrieving function source: " ++ exn_str e))
  | Return func_source =>
      OpenAI ;;
      chat_completions_create
        (mk_Request "gpt-4o-mini"
           [("system", improve_system_prompt);
            ("user",
             "Here is the function:" ++ nl ++ "```python" ++ nl
             ++ func_source ++ nl ++ "```")]
           "0.3" 1000)
  end.

(** ** [read_python_file] (lines 205-211) *)

Definition read_python_file (file_path : string) : IO string :=
  fun w tr =>
    if negb (path_exists w file_path) then
      (Failed (mk_exception "FileNotFoundError"
                 ("File not found: " ++ file_path) true), tr)
    else (read_text w file_path, (tr ++ [FileRead file_path])%list).

(** ** [analyze_python_script] (lines 213-248) *)

Definition analysis_system_prompt : string :=
  "You are an expert Python developer and AI tool orchestration specialist." ++ nl
  ++ "Your task is to analyze a full Python script, determine its overall purpose, and extract key functions that can be modularized into OpenAI-compatible tools." ++ nl
  ++ nl
  ++ "### Instructions:" ++ nl
  ++ "1️⃣ Identify the **overall goal** of the script." ++ nl
  ++ "2️⃣ Extract and summarize **major functions**." ++ nl
  ++ "3️⃣ Determine how the script can be **broken into separate tools**." ++ nl
  ++ "4️⃣ Provide a **pseudocode outline** of the tools that could be created." ++ nl
  ++ "5️⃣ Make a **recommendation**: Should this script be modularized into tools?" ++ nl
  ++ "6️⃣ Keep responses structured, logical, and formatted for clarity." ++ nl.

Definition analyze_python_script (file_path : string) : IO (option string) :=
  script_content <- read_python_file file_path ;;
  OpenAI ;;
  chat_completions_create
    (mk_Request "gpt-4o-mini"
       [("system", analysis_system_prompt);
        ("user",
         "Here is the script:" ++ nl ++ "```python" ++ nl
         ++ script_content ++ nl ++ "```")]
       "0.3" 1500).

(** ** [extract_tools_from_analysis] (lines 333-362) *)

(** A suggested tool: the keys of the dictionaries of lines 348-361. *)
Record Tool : Type := mk_Tool
  { tool_name : string;
    tool_description : string;
    inputs : list string;
    output : string;
    script_purpose : string }.

(** The function is a placeholder: it returns the same two tools for any
    analysis. *)
Definition extract_tools_from_analysis (script_analysis : option string)
  : list Tool :=
  [ mk_Tool "process_data" "Processes and cleans raw data inputs."
      ["data: list[str]"] "dict with cleaned data"
      "This script processes user-provided data and formats it for further analysis.";
    mk_Tool "generate_summary"
      "Generates a textual summary from structured data."
      ["data: dict"] "str with a summary"
      "This script generates a natural language summary of structured data." ].

(** ** [create_tools_from_analysis] (lines 250-331) *)

Definition tools_system_prompt : string :=
  "You are an AI developer assistant specializing in Python function modularization." ++ nl
  ++ "The user has approved breaking a script into tools." ++ nl
  ++ "You will receive a tool name, a description, and the script's overall purpose." ++ nl
  ++ "Your task is to generate a valid Python function that follows OpenAI's function schema rules:" ++ nl
  ++ "- It must have type annotations." ++ nl
  ++ "- It must not use *args or **kwargs." ++ nl
  ++ "- It must return JSON-compatible outputs (dict, list, str, int, float, bool, None)." ++ nl
  ++ "Return a fully implemented function that adheres to these guidelines.".

(** [str(l)] for a list of strings that hold no quote, no backslash and
    no control character, as the ones of lines 351 and 358. *)
Definition str_list (l : list string) : string :=
  "[" ++ join ", " (map (fun s => "'" ++ s ++ "'") l) ++ "]".

(** Lines 284-292. *)
Definition tool_prompt (tool : Tool) : string :=
  "The script is intended to achieve the following goal:" ++ nl
  ++ script_purpose tool ++ nl ++ nl
  ++ "Here is a tool that should be created:" ++ nl
  ++ "- **Tool Name**: " ++ tool_name tool ++ nl
  ++ "- **Description**: " ++ tool_description tool ++ nl
  ++ "- **Inputs**: " ++ str_list (inputs tool) ++ nl
  ++ "- **Expected Output**: " ++ output tool ++ nl
  ++ "Generate a complete Python function that meets these requirements.".

(** Lines 294-302. *)
Definition tool_request (tool : Tool) : Request :=
  mk_Request "gpt-4o-mini"
    [("system", tools_system_prompt); ("user", tool_prompt tool)]
    "0.2" 1000.

(** [next(val for val in values if callable(val))] *)
Definition next_callable (values : list FunctionObject) : IO FunctionObject :=
  match find is_callable values with
  | Some val => ret val
  | None => raise (mk_exception "StopIteration" "" true)
  end.

(** The reasons in a payload.  The checker is called without [and_parse]
    at line 314, and then it returns no schema. *)
Definition reasons_of (p : payload) : string :=
  match p with
  | Reasons text => text
  | Parsed _ => ""
  end.

(** [compatible, compatibility_report = r] *)
Definition unpack (r : result) : IO (bool * payload) :=
  match r with
  | Pair compatible compatibility_report =>
      ret (compatible, compatibility_report)
  | Plain _ =>
      raise (mk_exception "TypeError"
               "cannot unpack non-iterable bool object" true)
  end.

(** Step 2, lines 309-320: [True] when the generated function goes on to
    line 322, [False] when a [continue] is taken. *)
Definition validate (tool : Tool) (generated_function : option string)
  : IO bool :=
  try_except
    (values <- exec generated_function ;;
     generated_func <- next_callable values ;;
     r <- call (is_function_schema_compatible generated_func false true) ;;
     cr <- unpack r ;;
     if negb (fst cr) then
       print (nl ++ "⚠️ Function " ++ tool_name tool
              ++ " is NOT schema-compatible: " ++ reasons_of (snd cr) ++ nl) ;;
       ret false
     else ret true)
    (fun e =>
       print (nl ++ "⚠️ Error testing function " ++ tool_name tool
              ++ ": " ++ exc_str e ++ nl) ;;
       ret false).

(** The loop of lines 283-322, with [final_tool_definitions] passed along.
    A generated function that reaches line 322 is a string: [exec] raises
    for [None]. *)
Fixpoint generate_tools (tools : list Tool)
  (final_tool_definitions : list string) : IO (list string) :=
  match tools with
  | [] => ret final_tool_definitions
  | tool :: tools' =>
      generated_function <- chat_completions_create (tool_request tool) ;;
      print (nl ++ "Generated Function for " ++ tool_name tool ++ ":" ++ nl) ;;
      print (str_optional generated_function) ;;
      passed <- validate tool generated_function ;;
      generate_tools tools'
        (match passed, generated_function with
         | true, Some text => (final_tool_definitions ++ [text])%list
         | _, _ => final_tool_definitions
         end)
  end.

(** Lines 328-329: each definition is written with two line feeds after
    it. *)
Definition tools_file_content (final_tool_definitions : list string)
  : string :=
  String.concat ""
    (map (fun function_def => function_def ++ nl ++ nl)
       final_tool_definitions).

(** Lines 327-329: the file is opened and the definitions are written. *)
Definition write_tools (new_file_path : string)
  (final_tool_definitions : list string) : IO unit :=
  fun w tr =>
    match open_for_writing w new_file_path with
    | Done _ =>
        (Done tt,
         (tr ++ [FileWritten new_file_path
                   (tools_file_content final_tool_definitions)])%list)
    | Failed e => (Failed e, tr)
    end.

(** The prompt of line 261. *)
Definition consent_prompt : string :=
  nl ++ "Would you like to generate these tools? (y/n): ".

Definition create_tools_from_analysis (script_analysis : option string)
  (file_path : string) : IO unit :=
  print (nl ++ "--- AI Analysis of Python Script ---") ;;
  print (str_optional script_analysis) ;;
  answer <- input consent_prompt ;;
  let user_response := lower (strip answer) in
  if negb (String.eqb user_response "y") then
    print "Exiting without modifications."
  else
    let tools := extract_tools_from_analysis script_analysis in
    OpenAI ;;
    final_tool_definitions <- generate_tools tools [] ;;
    match final_tool_definitions with
    | [] => ret tt
    | _ :: _ =>
        let new_file_path := replace ".py" "_tools.py" file_path in
        write_tools new_file_path final_tool_definitions ;;
        print (nl ++ "✅ Tools successfully written to " ++ new_file_path)
    end.

(** ** The script (lines 365-372) *)

Definition main : IO unit :=
  answer <- input "Enter the path to the Python script: " ;;
  let file_path := strip answer in
  try_except
    (script_analysis <- analyze_python_script file_path ;;
     create_tools_from_analysis script_analysis file_path)
    (fun e => print ("Error: " ++ exc_str e)).

(** A computation that only adds to the trace, and does the same on any
    trace: what it does is what it does on the empty trace. *)
Definition frames {A : Type} (c : IO A) : Prop :=
  forall w tr, c w tr = (fst (c w []), (tr ++ snd (c w []))%list).

(** A generated text passes step 2 in a world: [exec] of it succeeds, some
    value it leaves is callable, and the verbose check of the first such
    value returns a tuple whose boolean is [True]. *)
Definition passes_validation (w : World) (text : string) : bool :=
  match exec_values w text with
  | Done values =>
      match find is_callable values with
      | Some generated_func =>
          match is_function_schema_compatible generated_func false true with
          | Return (Pair true _) => true
          | _ => false
          end
      | None => false
      end
  | Failed _ => false
  end.

(** The completions of the tools, in the order of the tools, that are
    strings and pass step 2. *)
Definition validated (w : World) (tools : list Tool) : list string :=
  flat_map
    (fun tool =>
       match completion w (tool_request tool) with
       | Done (Some text) => if passes_validation w text then [text] else []
       | _ => []
       end)
    tools.

(** The events of a trace that reach beyond the terminal. *)
Definition is_file_written (e : event) : bool :=
  match e with
  | FileWritten _ _ => true
  | _ => false
  end.

Definition is_request (e : event) : bool :=
  match e with
  | ClientCreated | Requested _ => true
  | _ => false
  end.

(** ** Sample worlds *)

(** The dictionary that [exec] leaves under [__builtins__], the first
    value of [exec_globals]: not callable. *)
Definition builtins_dict : FunctionObject :=
  {| is_callable := false;
     fn_name :=
       Raise (mk_exn AttributeError
                "'dict' object has no attribute '__name__'");
     fn_doc := DocStr "dict() -> new empty dictionary";
     fn_signature :=
       Raise (mk_exn TypeError "{...} is not a callable object");
     fn_source :=
       Raise (mk_exn TypeError
                "module, class, method, function, traceback, frame, or code object was expected, got dict") |}.

(** A world in which the user gives [answer], every request is answered
    with [text], and [exec] of a text leaves [values] after
    [__builtins__]; the files exist and can be written. *)
Definition sample_world (answer text : string) (values : list FunctionObject)
  : World :=
  {| stdin := fun _ => Done answer;
     new_client := Done tt;
     completion := fun _ => Done (Some text);
     exec_values := fun _ => Done (builtins_dict :: values);
     path_exists := fun _ => true;
     read_text := fun _ => Done "print('hello')";
     open_for_writing := fun _ => Done tt |}.

(** The user agrees, and the model answers with a definition of
    [process_data], which [exec] defines. *)
Definition world_exec_defined : World :=
  sample_world "y" "def process_data(data: list) -> dict: return {}"
    [process_data].

(** The user agrees, and the model answers with a text that imports
    [add_numbers] from a module file. *)
Definition world_imported : World :=
  sample_world " Y " "from tools import add_numbers" [add_numbers].

(** The same, with the answer [y] after a no-break space, U+00A0. *)
Definition world_no_break_space : World :=
  sample_world (utf8 [194; 160; 121]) "from tools import add_numbers"
    [add_numbers].

(** The user declines. *)
Definition world_declined : World :=
  sample_world "no" "def process_data(data: list) -> dict: return {}"
    [process_data].

(** The file that the user names does not exist. *)
Definition world_no_file : World :=
  {| stdin := fun _ => Done " missing.py";
     new_client := Done tt;
     completion := fun _ => Done (Some "...");
     exec_values := fun _ => Done [builtins_dict];
     path_exists := fun _ => false;
     read_text :=
       fun _ =>
         Failed (mk_exception "FileNotFoundError"
                   "[Errno 2] No such file or directory: 'missing.py'" true);
     open_for_writing := fun _ => Done tt |}.

(** * Properties *)

(** ** The examples of the specification *)

Example add_numbers_schema :
  function_to_schema add_numbers
  = Return
      (mk_Schema "function"
         (mk_FunctionSchema "add_numbers" "Adds two numbers."
            (mk_ParametersSchema "object"
               [("a", mk_Property "number"); ("b", mk_Property "number")]
               ["a"; "b"]))).
Proof. reflexivity. Qed.

Example greet_schema :
  function_to_schema greet
  = Return
      (mk_Schema "function"
         (mk_FunctionSchema "greet" "Greets somebody."
            (mk_ParametersSchema "object"
               [("name", mk_Property "string");
                ("greeting", mk_Property "string")]
               ["name"]))).
Proof. reflexivity. Qed.

Example get_weather_report :
  is_function_schema_compatible get_weather false true
  = Return
      (Pair false
         (Reasons "Parameter 'location' is missing a type annotation.")).
Proof. reflexivity. Qed.

Example ask_report :
  is_function_schema_compatible ask false true
  = Return
      (Pair false
         (Reasons
            "Function contains an input() call, which requires user interaction.")).
Proof. reflexivity. Qed.

Example forty_two_report :
  is_function_schema_compatible forty_two false true
  = Return (Pair false (Reasons "Provided object is not a function."))
  /\ is_function_schema_compatible forty_two true false
     = Return (Plain false).
Proof. split; reflexivity. Qed.

Example builtin_max_report :
  is_function_schema_compatible builtin_max false true
  = Return (Pair false (Reasons "Could not retrieve signature for max."))
  /\ function_to_schema builtin_max
     = Raise
         (mk_exn ValueError
            "Failed to get signature for function max: no signature found for builtin <built-in function max>").
Proof. split; reflexivity. Qed.

Example wrapped_tool_report :
  is_function_schema_compatible wrapped_tool false true
  = Return (Pair true (Reasons ""))
  /\ is_function_schema_compatible wrapped_tool true false
     = Return (Plain false).
Proof. split; reflexivity. Qed.

Example add_numbers_flags :
  is_function_schema_compatible add_numbers false false = Return (Plain true)
  /\ is_function_schema_compatible add_numbers false true
     = Return (Pair true (Reasons ""))
  /\ (exists schema,
         function_to_schema add_numbers = Return schema
         /\ is_function_schema_compatible add_numbers true false
            = Return (Pair true (Parsed schema))
         /\ is_function_schema_compatible add_numbers true true
            = Return (Pair true (Parsed schema))).
Proof.
  split; [reflexivity|]. split; [reflexivity|].
  eexists. repeat split; reflexivity.
Qed.

(** A list as annotation: the conversion and the checker both raise the
    [TypeError] of the lookup in [type_map]. *)
Example total_raises :
  function_to_schema total
  = Raise (mk_exn TypeError "unhashable type: 'list'")
  /\ forall and_parse verbose,
      is_function_schema_compatible total and_parse verbose
      = Raise (mk_exn TypeError "unhashable type: 'list'").
Proof. split; [reflexivity | intros [] []; reflexivity]. Qed.

(** The six reasons of [survey], in the order of the steps. *)
Example survey_report :
  is_function_schema_compatible survey false true
  = Return
      (Pair false
         (Reasons
            (join "; "
               [ "Parameter 'questions' is missing a type annotation.";
                 "Parameter 'scale' has an unrecognized type annotation: typing.Tuple[int, int].";
                 "Parameter 'origin' has an unsupported type: <class 'screen.Pixel'>.";
                 "Function uses *args or **kwargs, which are not supported.";
                 "Function contains an input() call, which requires user interaction.";
                 "Return type '<class 'tuple'>' is unsupported." ]))).
Proof. reflexivity. Qed.

(** [str.strip()] removes the white space of Unicode, and only at the
    ends. *)
Example strip_examples :
  strip (utf8 [194; 160; 121; 32; 226; 128; 131]) = "y"
  /\ strip (utf8 [32; 97; 194; 160; 98; 10]) = utf8 [97; 194; 160; 98]
  /\ strip (utf8 [226; 128; 139; 97]) = utf8 [226; 128; 139; 97]
  /\ strip (utf8 [9; 32; 227; 128; 128]) = "".
Proof. repeat split. Qed.

(** ** Running the steps of the checker *)

Lemma appends_ret {A : Type} (a : A) : appends (ret a : Run A).
Proof. intros st. simpl. now rewrite app_nil_r. Qed.

Lemma appends_append s : appends (append_disqualifier s).
Proof. intros st. reflexivity. Qed.

Lemma appends_eval {A : Type} (c : outcome A) : appends (eval c).
Proof. intros st. unfold eval. simpl. now rewrite app_nil_r. Qed.

Lemma appends_bind {A B : Type} (c : Run A) (k : A -> Run B) :
  appends c -> (forall a, appends (k a)) -> appends (bind c k).
Proof.
  intros Hc Hk st. simpl. rewrite (Hc st).
  destruct (c []) as [[a|e] new]; simpl.
  - rewrite (Hk a (st ++ new)%list), (Hk a new). simpl.
    now rewrite app_assoc.
  - reflexivity.
Qed.

Create HintDb steps.
#[local] Hint Resolve appends_ret appends_append appends_eval : steps.

Ltac appends :=
  repeat first
    [ progress auto with steps
    | apply appends_bind; [|intros]
    | match goal with
      | |- appends (if ?b then _ else _) => destruct b
      end ].

Lemma check_annotation_appends p : appends (check_annotation p).
Proof. unfold check_annotation. appends. Qed.

Lemma check_variadic_appends s : appends (check_variadic s).
Proof. unfold check_variadic. appends. Qed.

Lemma check_interactive_appends func : appends (check_interactive func).
Proof. unfold check_interactive. appends. Qed.

Lemma check_return_annotation_appends s :
  appends (check_return_annotation s).
Proof. unfold check_return_annotation. appends. Qed.

Lemma for_each_appends {A : Type} (l : list A) (body : A -> Run unit) :
  (forall x, appends (body x)) -> appends (for_each l body).
Proof.
  intros Hb. induction l as [|x l IH]; simpl.
  - apply (appends_ret tt).
  - apply appends_bind; [apply Hb | intros _; exact IH].
Qed.

#[local] Hint Resolve check_annotation_appends check_variadic_appends
  check_interactive_appends check_return_annotation_appends : steps.

(** A step followed by another, on the empty store. *)
Lemma bind_run {A B : Type} (c : Run A) (k : A -> Run B) :
  (forall a, appends (k a)) ->
  bind c k []
  = match c [] with
    | (Return a, new) => (fst (k a []), (new ++ snd (k a []))%list)
    | (Raise e, new) => (Raise e, new)
    end.
Proof.
  intros Hk. simpl. destruct (c []) as [[a|e] new]; [|reflexivity].
  apply (Hk a new).
Qed.

(** Step 3 on a parameter followed by the rest of the loop. *)
Lemma for_each_cons p ps :
  for_each (p :: ps) check_annotation []
  = match check_annotation p [] with
    | (Return _, new) =>
        (fst (for_each ps check_annotation []),
         (new ++ snd (for_each ps check_annotation []))%list)
    | (Raise e, new) => (Raise e, new)
    end.
Proof.
  cbn [for_each]. apply bind_run. intros _.
  apply for_each_appends. apply check_annotation_appends.
Qed.

(** When the loop of step 3 ends without exception, every turn did, and
    the store holds what the turns appended, in order. *)
Lemma for_each_returns ps :
  fst (for_each ps check_annotation []) = Return tt ->
  Forall (fun p => fst (check_annotation p []) = Return tt) ps
  /\ snd (for_each ps check_annotation [])
     = flat_map (fun p => appended (check_annotation p)) ps.
Proof.
  induction ps as [|p ps IH].
  - intros _. split; [constructor | reflexivity].
  - rewrite for_each_cons.
    destruct (check_annotation p []) as [[[]|e] new] eqn:Hp; cbn [fst snd];
      [|discriminate].
    intros H. destruct (IH H) as [IH1 IH2]. split.
    + constructor; [now rewrite Hp | exact IH1].
    + simpl. unfold appended at 1. now rewrite Hp, IH2.
Qed.

Lemma for_each_all_return ps :
  Forall (fun p => fst (check_annotation p []) = Return tt) ps ->
  for_each ps check_annotation []
  = (Return tt, flat_map (fun p => appended (check_annotation p)) ps).
Proof.
  induction 1 as [|p ps Hp _ IH]; [reflexivity|].
  rewrite for_each_cons, IH. cbn [fst snd flat_map]. unfold appended.
  destruct (check_annotation p []) as [[[]|e] new]; cbn [fst snd] in *;
    [reflexivity | discriminate Hp].
Qed.

(** What the loop of step 3 leaves in the store comes from its turns,
    also when a turn raises. *)
Lemma for_each_reasons ps r :
  In r (snd (for_each ps check_annotation [])) ->
  exists p, In p ps /\ In r (appended (check_annotation p)).
Proof.
  induction ps as [|p ps IH]; [intros []|].
  rewrite for_each_cons. unfold appended.
  destruct (check_annotation p []) as [[[]|e] new] eqn:Hp; cbn [fst snd].
  - intros H. apply in_app_or in H as [H|H].
    + exists p. rewrite Hp. split; [now left | exact H].
    + destruct (IH H) as (q & Hq & Hr). exists q. split; [now right | exact Hr].
  - intros H. exists p. rewrite Hp. split; [now left | exact H].
Qed.

(** Steps 3 to 6 on the empty store, step by step. *)
Lemma checks_run func sig :
  checks func sig []
  = match for_each (parameters sig) check_annotation [] with
    | (Raise e, l3) => (Raise e, l3)
    | (Return _, l3) =>
        match fn_source func with
        | Raise e => (Raise e, (l3 ++ appended (check_variadic sig))%list)
        | Return src =>
            (fst (check_return_annotation sig []),
             (l3 ++ appended (check_variadic sig)
              ++ (if contains "input(" src then [interactive_reason] else [])
              ++ appended (check_return_annotation sig))%list)
        end
    end.
Proof.
  unfold checks. rewrite bind_run by (intros; appends).
  destruct (for_each (parameters sig) check_annotation [])
    as [[[]|e] l3]; [|reflexivity].
  rewrite bind_run by (intros; appends).
  assert (Hv : check_variadic sig [] = (Return tt, appended (check_variadic sig))).
  { unfold appended, check_variadic. now destruct (existsb _ _). }
  rewrite Hv. cbn [fst snd].
  rewrite bind_run by (intros; appends).
  unfold check_interactive at 1 2.
  cbn [bind Monad_Run]. unfold eval at 1 2.
  destruct (fn_source func) as [src|e]; cbn [fst snd].
  - destruct (contains "input(" src); cbn [append_disqualifier ret Monad_Run app fst snd];
      unfold appended; reflexivity.
  - now rewrite app_nil_r.
Qed.

(** The body on a callable whose signature is read: steps 3 to 6, and
    then step 7 on what they accumulated unless one of them raised. *)
Lemma body_run func and_parse verbose sig st :
  is_callable func = true ->
  fn_signature func = Return sig ->
  is_function_schema_compatible_body func and_parse verbose st
  = match fst (checks func sig []) with
    | Return _ => return_results func and_parse verbose (accumulated func sig)
    | Raise e => (Raise e, accumulated func sig)
    end.
Proof.
  intros Hc Hs. unfold is_function_schema_compatible_body.
  cbn [bind Monad_Run assign]. rewrite Hc, Hs. cbn [negb].
  unfold accumulated, appended.
  now destruct (checks func sig []) as [[[]|e] ds].
Qed.

(** Step 7 returns, and leaves the store as it is. *)
Lemma return_results_run func and_parse verbose ds :
  return_results func and_parse verbose ds
  = (Return
       (if not_ ds && and_parse then
          match function_to_schema func with
          | Return schema => Pair true (Parsed schema)
          | Raise e =>
              if verbose
              then Pair false
                     (Reasons
                        ("Function is structurally valid but failed to convert: "
                         ++ exn_str e))
              else Plain false
          end
        else if verbose then Pair (not_ ds) (Reasons (join "; " ds))
             else Plain (not_ ds)),
     ds).
Proof.
  unfold return_results. cbn [bind Monad_Run disqualifiers].
  destruct (not_ ds && and_parse).
  - now destruct (function_to_schema func).
  - now destruct verbose.
Qed.

(** A call on a callable whose signature is read. *)
Lemma call_run func and_parse verbose sig :
  is_callable func = true ->
  fn_signature func = Return sig ->
  is_function_schema_compatible func and_parse verbose
  = match fst (checks func sig []) with
    | Return _ =>
        Return
          (if not_ (accumulated func sig) && and_parse then
             match function_to_schema func with
             | Return schema => Pair true (Parsed schema)
             | Raise e =>
                 if verbose
                 then Pair false
                        (Reasons
                           ("Function is structurally valid but failed to convert: "
                            ++ exn_str e))
                 else Plain false
             end
           else if verbose
                then Pair (not_ (accumulated func sig))
                       (Reasons (join "; " (accumulated func sig)))
                else Plain (not_ (accumulated func sig)))
    | Raise e => Raise e
    end.
Proof.
  intros Hc Hs. unfold is_function_schema_compatible.
  rewrite (body_run func and_parse verbose sig [] Hc Hs).
  destruct (fst (checks func sig [])); [|reflexivity].
  now rewrite return_results_run.
Qed.

Lemma final_disqualifiers_run func and_parse verbose sig :
  is_callable func = true ->
  fn_signature func = Return sig ->
  final_disqualifiers func and_parse verbose = accumulated func sig.
Proof.
  intros Hc Hs. unfold final_disqualifiers.
  rewrite (body_run func and_parse verbose sig [] Hc Hs).
  destruct (fst (checks func sig [])); [|reflexivity].
  now rewrite return_results_run.
Qed.

Lemma call_not_callable func and_parse verbose :
  is_callable func = false ->
  is_function_schema_compatible func and_parse verbose
  = Return (if verbose
            then Pair false (Reasons "Provided object is not a function.")
            else Plain false).
Proof.
  intros Hc. unfold is_function_schema_compatible,
    is_function_schema_compatible_body.
  simpl. rewrite Hc. reflexivity.
Qed.

Lemma call_signature_raises func and_parse verbose e :
  is_callable func = true ->
  fn_signature func = Raise e ->
  is_function_schema_compatible func and_parse verbose
  = match exn_cls e with
    | ValueError =>
        if verbose then
          match fn_name func with
          | Return func_name =>
              Return (Pair false
                        (Reasons
                           ("Could not retrieve signature for " ++ func_name
                            ++ ".")))
          | Raise e' => Raise e'
          end
        else Return (Plain false)
    | _ => Raise e
    end.
Proof.
  intros Hc Hs. unfold is_function_schema_compatible,
    is_function_schema_compatible_body.
  simpl. rewrite Hc, Hs. simpl.
  destruct (exn_cls e); try reflexivity.
  destruct verbose; [|reflexivity].
  unfold eval. simpl. now destruct (fn_name func).
Qed.

(** ** The reasons *)

(** Step 3 on a parameter, case by case. *)
Lemma check_annotation_run p :
  check_annotation p []
  = match eq_empty (p_annotation p) with
    | Raise e => (Raise e, [])
    | Return true => (Return tt, [missing_reason (p_name p)])
    | Return false =>
        match in_type_map (p_annotation p) with
        | Raise e => (Raise e, [])
        | Return true => (Return tt, [])
        | Return false =>
            if isinstance_type (p_annotation p) then
              match issubclass_rejected (p_annotation p) with
              | Raise e => (Raise e, [])
              | Return false => (Return tt, [])
              | Return true =>
                  match str_annotation (p_annotation p) with
                  | Raise e => (Raise e, [])
                  | Return text =>
                      (Return tt, [unsupported_reason (p_name p) text])
                  end
              end
            else
              match str_annotation (p_annotation p) with
              | Raise e => (Raise e, [])
              | Return text =>
                  (Return tt, [unrecognized_reason (p_name p) text])
              end
        end
    end.
Proof.
  unfold check_annotation. cbn [bind Monad_Run]. unfold eval.
  destruct (eq_empty _) as [[]|?]; try reflexivity.
  destruct (in_type_map _) as [[]|?]; try reflexivity.
  cbn [negb]. destruct (isinstance_type _); cbn [negb]; try reflexivity.
  all: try (destruct (issubclass_rejected _) as [[]|?]; try reflexivity).
  all: try (destruct (str_annotation _); reflexivity).
Qed.

(** Step 6, case by case. *)
Lemma check_return_annotation_run sig :
  check_return_annotation sig []
  = match in_type_map (return_annotation sig) with
    | Raise e => (Raise e, [])
    | Return true => (Return tt, [])
    | Return false =>
        match ne_empty (return_annotation sig) with
        | Raise e => (Raise e, [])
        | Return false => (Return tt, [])
        | Return true =>
            let unsupported :=
              match str_annotation (return_annotation sig) with
              | Raise e => (Raise e, [])
              | Return text =>
                  (Return tt, ["Return type '" ++ text ++ "' is unsupported."])
              end in
            if isinstance_type (return_annotation sig) then
              match issubclass_rejected (return_annotation sig) with
              | Raise e => (Raise e, [])
              | Return false => (Return tt, [])
              | Return true => unsupported
              end
            else unsupported
        end
    end.
Proof.
  unfold check_return_annotation. cbn [bind Monad_Run]. unfold eval.
  destruct (in_type_map _) as [[]|?]; try reflexivity.
  cbn [negb]. destruct (ne_empty _) as [[]|?]; try reflexivity.
  destruct (isinstance_type _); cbn [bind ret Monad_Run]; try reflexivity.
  all: try (destruct (issubclass_rejected _) as [[]|?]; cbn [negb];
            try reflexivity).
  all: try (destruct (str_annotation _); reflexivity).
Qed.

(** A reason of step 3 starts by naming its parameter. *)
Lemma annotation_reason_shape p r :
  In r (appended (check_annotation p)) ->
  exists rest, r = "Parameter '" ++ p_name p ++ rest.
Proof.
  unfold appended. rewrite check_annotation_run.
  repeat match goal with
         | |- context [match ?x with _ => _ end] => destruct x
         end; cbn [snd In]; intros H; try contradiction;
    destruct H as [<-|[]]; eexists; reflexivity.
Qed.

Lemma variadic_reasons_cases sig :
  appended (check_variadic sig)
  = if existsb (fun p => is_variadic (p_kind p)) (parameters sig)
    then [variadic_reason] else [].
Proof.
  unfold check_variadic, appended.
  now destruct (existsb _ _).
Qed.

Lemma return_reason_shape sig r :
  In r (appended (check_return_annotation sig)) ->
  exists text,
    str_annotation (return_annotation sig) = Return text
    /\ r = "Return type '" ++ text ++ "' is unsupported.".
Proof.
  unfold appended. rewrite check_return_annotation_run. cbv zeta.
  destruct (str_annotation (return_annotation sig)) as [text|e];
    repeat match goal with
           | |- context [match ?x with _ => _ end] => destruct x
           end; cbn [snd In]; intros H; try contradiction;
    destruct H as [<-|[]]; now exists text.
Qed.

(** What steps 3 to 6 leave in the store, whether they end by reaching
    step 7 or by an exception. *)
Lemma accumulated_cases func sig r :
  In r (accumulated func sig) ->
  (exists p rest,
      In p (parameters sig) /\ r = "Parameter '" ++ p_name p ++ rest)
  \/ r = variadic_reason
  \/ r = interactive_reason
  \/ (exists text,
         str_annotation (return_annotation sig) = Return text
         /\ r = "Return type '" ++ text ++ "' is unsupported.").
Proof.
  unfold accumulated, appended at 1. rewrite checks_run.
  assert (H3 : forall l3,
             l3 = snd (for_each (parameters sig) check_annotation []) ->
             In r l3 ->
             exists p rest,
               In p (parameters sig) /\ r = "Parameter '" ++ p_name p ++ rest).
  { intros l3 -> H. apply for_each_reasons in H as (p & Hp & H).
    apply annotation_reason_shape in H as [rest ->]. now exists p, rest. }
  assert (H4 : In r (appended (check_variadic sig)) -> r = variadic_reason).
  { rewrite variadic_reasons_cases.
    destruct (existsb _ _); cbn [In]; intuition. }
  destruct (for_each (parameters sig) check_annotation [])
    as [[[]|e] l3]; cbn [snd] in *.
  - destruct (fn_source func) as [src|e]; cbn [snd]; rewrite !in_app_iff.
    + intros [H|[H|[H|H]]].
      * left. now apply (H3 l3).
      * right; left. now apply H4.
      * right; right; left.
        destruct (contains "input(" src); cbn [In] in H; intuition.
      * right; right; right. now apply return_reason_shape.
    + intros [H|H].
      * left. now apply (H3 l3).
      * right; left. now apply H4.
  - intros H. left. now apply (H3 l3).
Qed.

(** No reason is the empty string. *)
Lemma accumulated_nonempty func sig r :
  In r (accumulated func sig) -> r <> "".
Proof.
  intros H. apply accumulated_cases in H.
  destruct H as [(p & rest & _ & ->) | [-> | [-> | (text & _ & ->)]]];
    discriminate.
Qed.

Lemma join_nil_iff sep l :
  (forall r, In r l -> r <> "") ->
  (not_ l = true <-> join sep l = "").
Proof.
  intros Hne. destruct l as [|x l]; simpl.
  - split; reflexivity.
  - split; [discriminate|]. intros Hj. exfalso.
    apply (Hne x); [now left|].
    destruct x as [|c x]; [reflexivity|].
    destruct l; simpl in Hj; discriminate Hj.
Qed.

(** C2, as amended.  A call that asks for the reasons and returns gives a
    tuple.  When the tuple carries a reason string, its boolean is [True]
    exactly when that string is empty: this covers the returns for a
    non-callable, for an unreadable signature and for a failed
    conversion.  The only other tuple is [(True, schema)], returned when
    [and_parse] is set and no reason was accumulated: it carries the
    schema and no reason string. *)
Theorem verbose_result_reasons func and_parse r :
  is_function_schema_compatible func and_parse true = Return r ->
  (exists b text, r = Pair b (Reasons text) /\ (b = true <-> text = ""))
  \/ (exists schema,
         r = Pair true (Parsed schema)
         /\ and_parse = true
         /\ final_disqualifiers func and_parse true = []
         /\ function_to_schema func = Return schema).
Proof.
  destruct (is_callable func) eqn:Hc.
  - destruct (fn_signature func) as [sig|e] eqn:Hs.
    + rewrite (call_run func and_parse true sig Hc Hs),
        (final_disqualifiers_run func and_parse true sig Hc Hs).
      destruct (fst (checks func sig [])); [|discriminate].
      destruct (not_ (accumulated func sig) && and_parse) eqn:Hand.
      * apply andb_prop in Hand as [Hds ->].
        destruct (function_to_schema func) as [schema|e]; intros [= <-].
        -- right. exists schema. repeat split.
           now destruct (accumulated func sig).
        -- left. eexists _, _. split; [reflexivity|]. split; discriminate.
      * intros [= <-]. left. eexists _, _. split; [reflexivity|].
        apply join_nil_iff. apply accumulated_nonempty.
    + rewrite (call_signature_raises func and_parse true e Hc Hs).
      destruct (exn_cls e); try discriminate.
      destruct (fn_name func) as [n|e']; [|discriminate].
      intros [= <-]. left. eexists _, _. split; [reflexivity|].
      split; discriminate.
  - rewrite (call_not_callable func and_parse true Hc).
    intros [= <-]. left. eexists _, _. split; [reflexivity|].
    split; discriminate.
Qed.

Lemma verbose_result_reasons_witness :
  (exists b text,
      Pair true (Reasons "") = Pair b (Reasons text)
      /\ (b = true <-> text = ""))
  \/ (exists schema,
         Pair true (Reasons "") = Pair true (Parsed schema)
         /\ false = true
         /\ final_disqualifiers add_numbers false true = []
         /\ function_to_schema add_numbers = Return schema).
Proof.
  apply (verbose_result_reasons add_numbers false (Pair true (Reasons ""))).
  reflexivity.
Defined.

(** C2, as stated, fails: a verbose call with [and_parse] on a compatible
    function returns [(True, schema)], which pairs [True] with the schema
    and not with an empty reason string. *)
Lemma verbose_result_without_reasons :
  ~ (forall func and_parse r,
        is_function_schema_compatible func and_parse true = Return r ->
        exists b text, r = Pair b (Reasons text) /\ (b = true <-> text = "")).
Proof.
  intros H.
  destruct (H add_numbers true _ eq_refl) as (b & text & Heq & _).
  discriminate Heq.
Qed.

(** ** Calls that cannot read the source text *)

(** Step 3 does not raise on a parameter annotated with one of the
    classes that the source names. *)
Lemma check_annotation_class p c :
  p_annotation p = Class c -> fst (check_annotation p []) = Return tt.
Proof.
  intros Ha. rewrite check_annotation_run, Ha. now destruct c.
Qed.

(** A callable with a readable signature and no retrievable source text
    makes the checker raise, with any flags, when step 3 did not raise
    before. *)
Lemma checker_raises_without_source func and_parse verbose sig e :
  is_callable func = true ->
  fn_signature func = Return sig ->
  fst (for_each (parameters sig) check_annotation []) = Return tt ->
  fn_source func = Raise e ->
  is_function_schema_compatible func and_parse verbose = Raise e.
Proof.
  intros Hc Hs H3 Hsrc.
  rewrite (call_run func and_parse verbose sig Hc Hs), checks_run.
  destruct (for_each (parameters sig) check_annotation [])
    as [[[]|e3] l3]; [|discriminate H3].
  now rewrite Hsrc.
Qed.

(** The report of the checker on a callable whose signature is read,
    when steps 3 to 6 did not raise and accumulated some reason. *)
Lemma checker_reports_reasons func and_parse verbose sig :
  is_callable func = true ->
  fn_signature func = Return sig ->
  fst (checks func sig []) = Return tt ->
  accumulated func sig <> [] ->
  is_function_schema_compatible func and_parse verbose
  = Return (if verbose
            then Pair false (Reasons (join "; " (accumulated func sig)))
            else Plain false).
Proof.
  intros Hc Hs Hsteps Hne.
  rewrite (call_run func and_parse verbose sig Hc Hs), Hsteps.
  destruct (accumulated func sig); [congruence|reflexivity].
Qed.

(** C3.  That the checker returns a value for every callable whose
    signature can be read, and reports the interactive-input check by
    value, fails on the code at [process_data]: the object is callable,
    its signature is read and all its annotations are supported, and yet
    no call returns: the exception of [inspect.getsource], called at
    line 117 outside any [try], leaves the checker. *)
Theorem checker_raises_on_exec_defined :
  is_callable process_data = true
  /\ (exists sig, fn_signature process_data = Return sig)
  /\ forall and_parse verbose,
      is_function_schema_compatible process_data and_parse verbose
      = Raise no_source.
Proof.
  split; [reflexivity|]. split; [eexists; reflexivity|].
  intros and_parse verbose.
  now apply (checker_raises_without_source process_data and_parse verbose
               (mk_Signature [plain "data" (Class c_list)] (Class c_dict))).
Qed.

(** ** Reject-listed parameters *)


(** What step 3 appends for a parameter is in the store when steps 3 to
    6 end without exception. *)
Lemma annotation_reason_accumulated func sig p r :
  fst (checks func sig []) = Return tt ->
  In p (parameters sig) ->
  In r (appended (check_annotation p)) ->
  In r (accumulated func sig).
Proof.
  intros Hsteps Hin Hr. unfold accumulated, appended at 1.
  rewrite checks_run in Hsteps |- *.
  destruct (for_each (parameters sig) check_annotation [])
    as [[[]|e3] l3] eqn:H3; [|discriminate Hsteps].
  assert (Hl3 : In r l3).
  { destruct (for_each_returns (parameters sig)) as [_ E];
      [now rewrite H3|].
    rewrite H3 in E. cbn [snd] in E. rewrite E.
    apply in_flat_map. now exists p. }
  destruct (fn_source func); cbn [snd]; apply in_or_app; now left.
Qed.


(** C4.  That a function with a parameter annotated with a reject-listed
    class is reported incompatible, with a reason naming the parameter,
    fails on the code at [plot]: its parameter [point] is annotated
    [tuple], and no call reports anything: every call raises the
    exception of [inspect.getsource]. *)
Theorem reject_listed_parameter_unreported :
  (exists sig p,
      fn_signature plot = Return sig
      /\ In p (parameters sig)
      /\ p_annotation p = Class c_tuple)
  /\ forall and_parse verbose,
      is_function_schema_compatible plot and_parse verbose = Raise no_source.
Proof.
  split.
  - eexists _, (plain "point" (Class c_tuple)).
    split; [reflexivity|]. split; [now left | reflexivity].
  - intros and_parse verbose.
    now apply (checker_raises_without_source plot and_parse verbose
                 (mk_Signature [plain "point" (Class c_tuple)]
                    (Class c_dict))).
Qed.

(** ** Variadic parameters *)

Lemma count_occ_absent (l : list string) (r : string) :
  ~ In r l -> count_occ string_dec l r = 0.
Proof. apply count_occ_not_In. Qed.

(** When steps 3 to 6 do not raise, a function with a variadic parameter
    is reported incompatible, and the reason about variadic parameters
    is accumulated exactly once. *)
Lemma variadic_reported_once func sig and_parse :
  is_callable func = true ->
  fn_signature func = Return sig ->
  fst (checks func sig []) = Return tt ->
  existsb (fun p => is_variadic (p_kind p)) (parameters sig) = true ->
  count_occ string_dec (accumulated func sig) variadic_reason = 1
  /\ is_function_schema_compatible func and_parse false
     = Return (Plain false)
  /\ is_function_schema_compatible func and_parse true
     = Return (Pair false (Reasons (join "; " (accumulated func sig)))).
Proof.
  intros Hc Hs Hsteps Hv.
  assert (Hcount :
           count_occ string_dec (accumulated func sig) variadic_reason = 1).
  { unfold accumulated, appended at 1. rewrite checks_run in Hsteps |- *.
    destruct (for_each (parameters sig) check_annotation [])
      as [[[]|e3] l3] eqn:H3; [|discriminate Hsteps].
    destruct (fn_source func) as [src|e]; [|discriminate Hsteps].
    cbn [snd]. rewrite !count_occ_app, variadic_reasons_cases, Hv.
    rewrite (count_occ_absent l3).
    - rewrite (count_occ_absent (if contains "input(" src then _ else _)).
      + rewrite (count_occ_absent (appended (check_return_annotation sig)));
          [reflexivity|].
        intros H. apply return_reason_shape in H as (text & _ & H).
        discriminate H.
      + destruct (contains "input(" src); cbn [In]; [|tauto].
        intros [H|[]]. discriminate H.
    - intros H.
      assert (H' : In variadic_reason
                     (snd (for_each (parameters sig) check_annotation [])))
        by now rewrite H3.
      apply for_each_reasons in H' as (p & _ & H').
      apply annotation_reason_shape in H' as [rest H']. discriminate H'. }
  assert (Hne : accumulated func sig <> []).
  { intros E. rewrite E in Hcount. discriminate Hcount. }
  split; [exact Hcount|].
  split.
  - apply (checker_reports_reasons func and_parse false sig Hc Hs Hsteps Hne).
  - apply (checker_reports_reasons func and_parse true sig Hc Hs Hsteps Hne).
Qed.

(** C5.  That a function with a variadic parameter is reported
    incompatible with exactly one reason about variadic parameters fails
    on the code at [log]: it takes [*args] and [**kwargs], and no call
    reports anything: every call raises the exception of
    [inspect.getsource]. *)
Theorem variadic_unreported :
  (exists sig,
      fn_signature log = Return sig
      /\ existsb (fun p => is_variadic (p_kind p)) (parameters sig) = true)
  /\ forall and_parse verbose,
      is_function_schema_compatible log and_parse verbose = Raise no_source.
Proof.
  split.
  - eexists. split; reflexivity.
  - intros and_parse verbose.
    now apply (checker_raises_without_source log and_parse verbose
                 (mk_Signature
                    [mk_Param "args" inspect_empty no_default VAR_POSITIONAL;
                     mk_Param "kwargs" inspect_empty no_default VAR_KEYWORD]
                    (Class c_str))).
Qed.

(** ** The return annotation *)

Lemma is_return_reason_return rest :
  is_return_reason ("Return type '" ++ rest) = true.
Proof. unfold is_return_reason. simpl. now destruct rest. Qed.

Lemma filter_none {A : Type} (f : A -> bool) (l : list A) :
  (forall x, In x l -> f x = false) -> filter f l = [].
Proof.
  induction l as [|a l IH]; intros H; [reflexivity|].
  simpl. rewrite (H a (or_introl eq_refl)). apply IH.
  intros x Hx. apply H. now right.
Qed.

Lemma filter_all {A : Type} (f : A -> bool) (l : list A) :
  (forall x, In x l -> f x = true) -> filter f l = l.
Proof.
  induction l as [|a l IH]; intros H; [reflexivity|].
  simpl. rewrite (H a (or_introl eq_refl)). f_equal. apply IH.
  intros x Hx. apply H. now right.
Qed.

(** The reasons about the return type in the store are those of step 6,
    when it is reached. *)
Lemma accumulated_return_reasons func sig :
  filter is_return_reason (accumulated func sig)
  = match fst (for_each (parameters sig) check_annotation []),
          fn_source func with
    | Return _, Return _ => appended (check_return_annotation sig)
    | _, _ => []
    end.
Proof.
  unfold accumulated, appended at 1. rewrite checks_run.
  assert (H3 : filter is_return_reason
                 (snd (for_each (parameters sig) check_annotation [])) = []).
  { apply filter_none. intros r Hr.
    apply for_each_reasons in Hr as (p & _ & Hr).
    now apply annotation_reason_shape in Hr as [rest ->]. }
  assert (H4 : filter is_return_reason (appended (check_variadic sig)) = []).
  { rewrite variadic_reasons_cases. now destruct (existsb _ _). }
  destruct (for_each (parameters sig) check_annotation [])
    as [[[]|e3] l3]; cbn [fst snd] in *; [|exact H3].
  destruct (fn_source func) as [src|e]; cbn [snd]; rewrite !filter_app, H3, H4.
  - assert (H5 : filter is_return_reason
                   (if contains "input(" src then [interactive_reason] else [])
                 = [])
      by now destruct (contains "input(" src).
    rewrite H5. cbn [app]. apply filter_all. intros r Hr.
    apply return_reason_shape in Hr as (text & _ & ->).
    apply is_return_reason_return.
  - reflexivity.
Qed.

(** When steps 3 to 6 do not raise, a return annotation that is present
    and is either not a class or a reject-listed class adds exactly one
    reason about the return type, which names it. *)
Lemma return_annotation_reported func sig and_parse verbose text :
  is_callable func = true ->
  fn_signature func = Return sig ->
  fst (checks func sig []) = Return tt ->
  in_type_map (return_annotation sig) = Return false ->
  ne_empty (return_annotation sig) = Return true ->
  isinstance_type (return_annotation sig) = false
  \/ issubclass_rejected (return_annotation sig) = Return true ->
  str_annotation (return_annotation sig) = Return text ->
  filter is_return_reason (final_disqualifiers func and_parse verbose)
  = ["Return type '" ++ text ++ "' is unsupported."].
Proof.
  intros Hc Hs Hsteps Hin Hne Hkind Hstr.
  rewrite (final_disqualifiers_run func and_parse verbose sig Hc Hs).
  rewrite accumulated_return_reasons. rewrite checks_run in Hsteps.
  destruct (for_each (parameters sig) check_annotation [])
    as [[[]|e3] l3]; [|discriminate Hsteps].
  destruct (fn_source func) as [src|e]; [|discriminate Hsteps].
  cbn [fst]. unfold appended.
  rewrite check_return_annotation_run, Hin, Hne, Hstr. cbv zeta.
  destruct Hkind as [-> | Hk]; [reflexivity|].
  rewrite Hk. now destruct (isinstance_type _).
Qed.

(** A function without return annotation gets no reason about the return
    type, on any path. *)
Lemma return_annotation_absent func sig and_parse verbose :
  fn_signature func = Return sig ->
  return_annotation sig = inspect_empty ->
  filter is_return_reason (final_disqualifiers func and_parse verbose) = [].
Proof.
  intros Hs Hra.
  destruct (is_callable func) eqn:Hc.
  - rewrite (final_disqualifiers_run func and_parse verbose sig Hc Hs).
    rewrite accumulated_return_reasons.
    destruct (fst (for_each _ _ _)); [|reflexivity].
    destruct (fn_source func); [|reflexivity].
    unfold appended. now rewrite check_return_annotation_run, Hra.
  - unfold final_disqualifiers, is_function_schema_compatible_body.
    simpl. rewrite Hc. reflexivity.
Qed.

(** C7.  That a return annotation which is present and reject-listed
    gets exactly one reason naming the return type fails on the code at
    [divmod_]: its return annotation [tuple] is present and
    reject-listed, and no reason about the return type is ever appended:
    every call raises the exception of [inspect.getsource] at step 5,
    before step 6 is reached. *)
Theorem return_annotation_unreported :
  (exists sig,
      fn_signature divmod_ = Return sig
      /\ return_annotation sig = Class c_tuple)
  /\ forall and_parse verbose,
      is_function_schema_compatible divmod_ and_parse verbose
      = Raise no_source
      /\ filter is_return_reason
           (final_disqualifiers divmod_ and_parse verbose)
         = [].
Proof.
  split.
  - eexists. split; reflexivity.
  - intros and_parse verbose. split.
    + now apply (checker_raises_without_source divmod_ and_parse verbose
                   (mk_Signature
                      [plain "a" (Class c_int); plain "b" (Class c_int)]
                      (Class c_tuple))).
    + reflexivity.
Qed.

(** ** Conversion after the check *)

(** A function is judged compatible when the plain check returns [True]:
    then it is callable, its signature was read, steps 3 to 6 raised
    nothing and accumulated no reason. *)
Lemma judged_compatible_inv func :
  is_function_schema_compatible func false false = Return (Plain true) ->
  is_callable func = true
  /\ exists sig,
      fn_signature func = Return sig
      /\ fst (checks func sig []) = Return tt
      /\ accumulated func sig = [].
Proof.
  destruct (is_callable func) eqn:Hc.
  - destruct (fn_signature func) as [sig|e] eqn:Hs.
    + rewrite (call_run func false false sig Hc Hs).
      destruct (fst (checks func sig [])) as [[]|e] eqn:Hsteps;
        [|discriminate].
      rewrite andb_false_r. intros [= Hn]. split; [reflexivity|].
      exists sig. split; [reflexivity|]. split; [exact Hsteps|].
      now destruct (accumulated func sig).
    + rewrite (call_signature_raises func false false e Hc Hs).
      destruct (exn_cls e); discriminate.
  - rewrite (call_not_callable func false false Hc). discriminate.
Qed.



(** ** Dictionaries built by successive assignments *)

Section DictFacts.
Context {V : Type}.
Implicit Types (d : list (string * V)) (k : string) (v : V).

Lemma dict_set_fresh d k v :
  ~ In k (dict_keys d) -> dict_set string_dec d k v = (d ++ [(k, v)])%list.
Proof.
  induction d as [|[k' v'] d IH]; simpl; intros Hk.
  - reflexivity.
  - destruct (string_dec k k') as [->|_].
    + exfalso. apply Hk. now left.
    + rewrite IH; [reflexivity | intros Hin; apply Hk; now right].
Qed.

Lemma dict_set_keys_in d k v k' :
  In k' (dict_keys (dict_set string_dec d k v))
  <-> k' = k \/ In k' (dict_keys d).
Proof.
  induction d as [|[k0 v0] d IH]; simpl.
  - intuition.
  - destruct (string_dec k k0) as [->|Hne]; simpl.
    + intuition.
    + rewrite IH. intuition.
Qed.

Lemma dict_set_keys_NoDup d k v :
  NoDup (dict_keys d) -> NoDup (dict_keys (dict_set string_dec d k v)).
Proof.
  induction d as [|[k0 v0] d IH]; simpl; intros Hnd.
  - constructor; [intros [] | constructor].
  - inversion Hnd as [|? ? Hk0 Hrest]; subst.
    destruct (string_dec k k0) as [->|Hne]; simpl.
    + constructor; assumption.
    + constructor; [|now apply IH].
      intros Hin. apply dict_set_keys_in in Hin as [Heq|Hin];
        [congruence | contradiction].
Qed.

(** Looking up the key of an entry of a dictionary with distinct keys
    gives that entry. *)
Lemma dict_get_entry {A : Type} (key : A -> string) (R : A -> V -> Prop)
      (ps : list A) d (p : A) :
  NoDup (map key ps) ->
  Forall2 (fun p entry => fst entry = key p /\ R p (snd entry)) ps d ->
  In p ps ->
  exists v, dict_get string_dec d (key p) = Some v /\ R p v.
Proof.
  intros Hnd HF. revert Hnd.
  induction HF as [|q [k v] ps d [Hk HR] _ IH]; simpl; intros Hnd Hin;
    [contradiction|].
  simpl in Hk. subst k.
  inversion Hnd as [|? ? Hq Hrest]; subst.
  destruct Hin as [->|Hin].
  - exists v. destruct (string_dec (key p) (key p)); [now split | congruence].
  - destruct (string_dec (key p) (key q)) as [Heq|_].
    + exfalso. apply Hq. rewrite <- Heq. now apply in_map.
    + now apply IH.
Qed.
End DictFacts.

(** ** The conversion *)

(** The loop of lines 29-37 on parameters whose names are new and
    pairwise distinct: it returns when every lookup does, and then it has
    appended one entry for each parameter, in order. *)
Lemma schema_properties_from_distinct ps :
  forall d d',
    NoDup (dict_keys d ++ map p_name ps) ->
    schema_properties_from ps d = Return d' ->
    exists entries,
      d' = (d ++ entries)%list
      /\ Forall2
           (fun p entry =>
              fst entry = p_name p
              /\ schema_type_of (p_annotation p)
                 = Return (prop_type (snd entry)))
           ps entries.
Proof.
  induction ps as [|p ps IH]; intros d d' Hnd.
  - intros [= <-]. exists []. split; [now rewrite app_nil_r | constructor].
  - cbn [schema_properties_from bind Monad_outcome].
    destruct (schema_type_of (p_annotation p)) as [t|e] eqn:Ht;
      [|discriminate].
    assert (Hfresh : ~ In (p_name p) (dict_keys d)).
    { simpl in Hnd. apply NoDup_remove_2 in Hnd. intros Hin. apply Hnd.
      apply in_or_app. now left. }
    rewrite (dict_set_fresh d (p_name p) (mk_Property t) Hfresh).
    intros Hrest. apply IH in Hrest as (entries & -> & HF).
    + exists ((p_name p, mk_Property t) :: entries).
      split; [now rewrite <- app_assoc|].
      constructor; [now split | exact HF].
    + unfold dict_keys in *. rewrite map_app, <- app_assoc. exact Hnd.
Qed.

(** The same loop, whatever the names: the keys stay pairwise distinct,
    and the names of the parameters are added to them. *)
Lemma schema_properties_from_keys ps :
  forall d d',
    NoDup (dict_keys d) ->
    schema_properties_from ps d = Return d' ->
    NoDup (dict_keys d')
    /\ forall k, In k (dict_keys d') <-> In k (dict_keys d) \/ In k (map p_name ps).
Proof.
  induction ps as [|p ps IH]; intros d d' Hnd.
  - intros [= <-]. split; [assumption | simpl; intuition].
  - cbn [schema_properties_from bind Monad_outcome].
    destruct (schema_type_of (p_annotation p)) as [t|e]; [|discriminate].
    intros Hrest.
    apply IH in Hrest as [H1 H2]; [|now apply dict_set_keys_NoDup].
    split; [exact H1|].
    intros k. rewrite H2, dict_set_keys_in. simpl. intuition.
Qed.



(** The comprehension of lines 39-43 returns when every comparison does,
    and then it lists the parameters for which the comparison is true. *)
Lemma schema_required_of_returns ps names :
  schema_required_of ps = Return names ->
  names = map p_name (filter listed_as_required ps)
  /\ Forall (fun p => exists is_empty, default_is_empty p = Return is_empty)
       ps.
Proof.
  revert names. induction ps as [|p ps IH]; intros names.
  - intros [= <-]. split; [reflexivity | constructor].
  - cbn [schema_required_of bind Monad_outcome]. unfold listed_as_required.
    simpl. destruct (default_is_empty p) as [b|e] eqn:Hp; [|discriminate].
    destruct (schema_required_of ps) as [rest|e]; [|discriminate].
    destruct (IH rest eq_refl) as [-> HF].
    cbn [ret Monad_outcome]. intros [= <-]. split.
    + now destruct b.
    + constructor; [now exists b | exact HF].
Qed.


(** What a returned schema is made of. *)
Lemma function_to_schema_inv func sig schema :
  fn_signature func = Return sig ->
  function_to_schema func = Return schema ->
  exists props func_name text,
    schema_properties sig = Return props
    /\ schema_required sig
       = Return (map p_name (filter listed_as_required (parameters sig)))
    /\ fn_name func = Return func_name
    /\ doc_stripped func = Return text
    /\ schema
       = mk_Schema "function"
           (mk_FunctionSchema func_name text
              (mk_ParametersSchema "object" props
                 (map p_name (filter listed_as_required (parameters sig))))).
Proof.
  intros Hs. unfold function_to_schema. rewrite Hs.
  cbn [bind Monad_outcome].
  destruct (schema_properties sig) as [props|e]; [|discriminate].
  destruct (schema_required sig) as [req|e] eqn:Hreq; [|discriminate].
  destruct (fn_name func) as [nm|e]; [|discriminate].
  destruct (doc_stripped func) as [text|e]; [|discriminate].
  cbn [ret Monad_outcome]. intros [= <-].
  destruct (schema_required_of_returns _ _ Hreq) as [-> _].
  exists props, nm, text. repeat split.
Qed.


(** The entry of a parameter in the [properties] of a returned schema,
    when the names of the parameters are distinct. *)
Lemma returned_property func sig schema p :
  fn_signature func = Return sig ->
  distinct_names sig ->
  function_to_schema func = Return schema ->
  In p (parameters sig) ->
  exists param_type,
    dict_get string_dec (properties (fs_parameters (function schema)))
      (p_name p)
    = Some (mk_Property param_type)
    /\ schema_type_of (p_annotation p) = Return param_type.
Proof.
  intros Hs Hnd Hconv Hin.
  destruct (function_to_schema_inv func sig schema Hs Hconv)
    as (props & nm & text & Hp & _ & _ & _ & ->).
  cbn [function fs_parameters properties].
  destruct (schema_properties_from_distinct _ [] props Hnd Hp)
    as (entries & -> & HF).
  destruct (dict_get_entry p_name
              (fun p v => schema_type_of (p_annotation p)
                          = Return (prop_type v))
              (parameters sig) entries p Hnd HF Hin) as ([t] & Hget & Ht).
  exists t. now split.
Qed.



Lemma distinct_two (a b : string) : a <> b -> NoDup [a; b].
Proof.
  intros Hne. constructor.
  - intros [H|[]]. now apply Hne.
  - constructor; [intros [] | constructor].
Qed.






(** ** The reject-list and the conversion *)





(** What the two functions give on [draw]. *)
Example draw_report :
  is_function_schema_compatible draw false true
  = Return
      (Pair false
         (Reasons "Parameter 'point' has an unsupported type: <class 'tuple'>."))
  /\ function_to_schema draw
     = Return
         (mk_Schema "function"
            (mk_FunctionSchema "draw" "Draws a point."
               (mk_ParametersSchema "object"
                  [("point", mk_Property "string");
                   ("label", mk_Property "string")]
                  ["point"]))).
Proof. split; reflexivity. Qed.


(** * Further properties of the two functions *)

(** ** The keys of [properties] *)

(** X1.  Whatever the signature, the keys of [properties] in a returned
    schema are pairwise distinct and are the parameter names, and every
    name in [required] is one of these keys. *)
Theorem schema_keys_invariant func schema :
  function_to_schema func = Return schema ->
  NoDup (dict_keys (properties (fs_parameters (function schema))))
  /\ incl (required (fs_parameters (function schema)))
       (dict_keys (properties (fs_parameters (function schema))))
  /\ exists sig,
      fn_signature func = Return sig
      /\ forall k,
          In k (dict_keys (properties (fs_parameters (function schema))))
          <-> In k (map p_name (parameters sig)).
Proof.
  intros Hconv.
  destruct (fn_signature func) as [sig|e] eqn:Hs.
  - destruct (function_to_schema_inv func sig schema Hs Hconv)
      as (props & nm & text & Hp & _ & _ & _ & ->).
    cbn [function fs_parameters properties required].
    destruct (schema_properties_from_keys _ [] props (NoDup_nil _) Hp)
      as [Hnd Hkeys].
    split; [exact Hnd|]. split.
    + intros k Hk. apply Hkeys. right.
      apply in_map_iff in Hk as (p & <- & Hp').
      apply filter_In in Hp' as [Hp' _]. now apply in_map.
    + exists sig. split; [reflexivity|].
      intros k. rewrite Hkeys. simpl. intuition.
  - unfold function_to_schema in Hconv. rewrite Hs in Hconv.
    destruct (exn_cls e); try discriminate Hconv.
    destruct (fn_name func); discriminate Hconv.
Qed.

Lemma schema_keys_invariant_witness :
  let schema :=
    mk_Schema "function"
      (mk_FunctionSchema "greet" "Greets somebody."
         (mk_ParametersSchema "object"
            [("name", mk_Property "string");
             ("greeting", mk_Property "string")]
            ["name"])) in
  NoDup (dict_keys (properties (fs_parameters (function schema))))
  /\ incl (required (fs_parameters (function schema)))
       (dict_keys (properties (fs_parameters (function schema))))
  /\ exists sig,
      fn_signature greet = Return sig
      /\ forall k,
          In k (dict_keys (properties (fs_parameters (function schema))))
          <-> In k (map p_name (parameters sig)).
Proof.
  intros schema. apply (schema_keys_invariant greet schema). reflexivity.
Defined.

(** ** What the conversion does not look at *)





(** The value of a default matters through the comparison only: [greet]
    with [ANY] as the default of [greeting] requires both parameters. *)
Example default_value_observed :
  function_to_schema
    {| is_callable := true;
       fn_name := Return "greet";
       fn_doc := DocNone;
       fn_signature :=
         Return (mk_Signature
                   [plain "name" (Class c_str);
                    mk_Param "greeting" (Class c_str)
                      (value "<ANY>" (Return true)) POSITIONAL_OR_KEYWORD]
                   (Class c_str));
       fn_source := Raise no_source |}
  = Return
      (mk_Schema "function"
         (mk_FunctionSchema "greet" ""
            (mk_ParametersSchema "object"
               [("name", mk_Property "string");
                ("greeting", mk_Property "string")]
               ["name"; "greeting"]))).
Proof. reflexivity. Qed.

(** ** The description *)

Lemma first_char_list s :
  first_char s = hd_error (list_ascii_of_string s).
Proof. now destruct s. Qed.

Lemma last_char_list s :
  last_char s = hd_error (rev (list_ascii_of_string s)).
Proof.
  induction s as [|a s IH]; [reflexivity|].
  destruct s as [|b s]; [reflexivity|].
  change (last_char (String a (String b s))) with (last_char (String b s)).
  rewrite IH. simpl.
  destruct (rev (list_ascii_of_string s) ++ [b])%list eqn:E.
  - now destruct (rev (list_ascii_of_string s)).
  - reflexivity.
Qed.

Lemma reverse_list s :
  list_ascii_of_string (reverse s) = rev (list_ascii_of_string s).
Proof.
  unfold reverse. apply list_ascii_of_string_of_list_ascii.
Qed.

Lemma last_char_reverse s : last_char (reverse s) = first_char s.
Proof.
  now rewrite last_char_list, reverse_list, rev_involutive, first_char_list.
Qed.

Lemma first_char_reverse s : first_char (reverse s) = last_char s.
Proof.
  now rewrite first_char_list, reverse_list, last_char_list.
Qed.

(** [drop] leaves a suffix. *)
Lemma drop_suffix n s :
  exists pre,
    list_ascii_of_string s = (pre ++ list_ascii_of_string (drop n s))%list.
Proof.
  revert s. induction n as [|n IH]; intros s.
  - exists []. now destruct s.
  - destruct s as [|a s]; [now exists []|].
    destruct (IH s) as [pre E]. exists (a :: pre). simpl. now rewrite E.
Qed.

(** [lstrip_from] leaves a suffix of its argument. *)
Lemma lstrip_from_suffix chars fuel s :
  exists pre,
    list_ascii_of_string s
    = (pre ++ list_ascii_of_string (lstrip_from chars fuel s))%list.
Proof.
  revert s. induction fuel as [|fuel IH]; intros s; cbn [lstrip_from].
  - now exists [].
  - unfold after_one_of.
    destruct (find (fun char => String.prefix char s) chars) as [char|];
      [|now exists []].
    destruct (drop_suffix (String.length char) s) as [pre1 E1].
    destruct (IH (drop (String.length char) s)) as [pre2 E2].
    exists (pre1 ++ pre2)%list. now rewrite E1, E2 at 1; rewrite app_assoc.
Qed.

Lemma length_list s : String.length s = length (list_ascii_of_string s).
Proof. induction s as [|a s IH]; simpl; [reflexivity | now rewrite IH]. Qed.

Lemma drop_length n s :
  n <> 0 -> s <> "" -> String.length (drop n s) < String.length s.
Proof.
  intros Hn Hs. destruct n as [|n]; [congruence|].
  destruct s as [|a s]; [congruence|]. simpl.
  destruct (drop_suffix n s) as [pre E].
  rewrite (length_list s), E, length_app, <- length_list. lia.
Qed.

(** With fuel for every character of the string, what [lstrip_from]
    leaves does not start with one of [chars], when none of them is
    empty. *)
Lemma lstrip_from_done chars :
  Forall (fun char => char <> "") chars ->
  forall fuel s,
    String.length s <= fuel ->
    after_one_of chars (lstrip_from chars fuel s) = None.
Proof.
  intros Hchars. induction fuel as [|fuel IH]; intros s Hlen;
    cbn [lstrip_from].
  - destruct s; [|simpl in Hlen; lia].
    unfold after_one_of.
    destruct (find (fun char => String.prefix char "") chars) as [char|] eqn:Hf;
      [|reflexivity].
    apply find_some in Hf as [Hin Hp].
    rewrite Forall_forall in Hchars. specialize (Hchars char Hin).
    destruct char; [congruence | discriminate Hp].
  - destruct (after_one_of chars s) as [s'|] eqn:Ha; [|exact Ha].
    apply IH. unfold after_one_of in Ha.
    destruct (find (fun char => String.prefix char s) chars) as [char|] eqn:Hf;
      [|discriminate Ha].
    injection Ha as <-.
    apply find_some in Hf as [Hin Hp].
    rewrite Forall_forall in Hchars. specialize (Hchars char Hin).
    assert (Hs : s <> "").
    { intros ->. destruct char; [congruence | discriminate Hp]. }
    assert (Hc : String.length char <> 0) by (destruct char; simpl; congruence).
    pose proof (drop_length (String.length char) s Hc Hs). lia.
Qed.

(** A string that does not start with one of [chars] does not start with
    a character that is one of them. *)
Lemma after_one_of_first chars s c :
  after_one_of chars s = None ->
  In (String c "") chars ->
  first_char s <> Some c.
Proof.
  unfold after_one_of. intros Ha Hin Hc.
  destruct (find (fun char => String.prefix char s) chars) eqn:Hf;
    [discriminate Ha|].
  apply (find_none _ _ Hf) in Hin.
  destruct s as [|a s]; [discriminate Hc|]. injection Hc as ->.
  simpl in Hin. destruct (ascii_dec c c); [|congruence].
  now destruct s.
Qed.

(** The white space of ASCII is white space for [strip], from either
    end. *)
Lemma is_space_white_space c :
  is_space c = true ->
  In (String c "") white_space /\ In (String c "") (map reverse white_space).
Proof.
  intros H.
  assert (Hc : In c (map ascii_of_nat [9; 10; 11; 12; 13; 28; 29; 30; 31; 32])).
  { destruct c as [[] [] [] [] [] [] [] []]; try discriminate H; simpl; tauto. }
  simpl in Hc. unfold white_space, utf8.
  repeat destruct Hc as [<-|Hc]; try contradiction;
    split; simpl; tauto.
Qed.

Lemma white_space_not_empty :
  Forall (fun char => char <> "") white_space
  /\ Forall (fun char => char <> "") (map reverse white_space).
Proof. split; repeat constructor; discriminate. Qed.

Lemma lstrip_of_first chars s c :
  Forall (fun char => char <> "") chars ->
  In (String c "") chars ->
  first_char (lstrip_of chars s) <> Some c.
Proof.
  intros Hne Hin. apply (after_one_of_first chars); [|exact Hin].
  now apply lstrip_from_done.
Qed.

(** [lstrip_of] keeps the last character, unless it removes everything. *)
Lemma lstrip_of_last chars s :
  lstrip_of chars s = "" \/ last_char (lstrip_of chars s) = last_char s.
Proof.
  unfold lstrip_of.
  destruct (lstrip_from_suffix chars (String.length s) s) as [pre E].
  destruct (lstrip_from chars (String.length s) s) as [|c r] eqn:El;
    [now left|].
  right. rewrite !last_char_list, E. rewrite rev_app_distr.
  simpl. now destruct (rev (list_ascii_of_string r)).
Qed.

Lemma rstrip_last s c : last_char (rstrip s) = Some c -> is_space c = false.
Proof.
  unfold rstrip. rewrite last_char_reverse. intros H.
  destruct (is_space c) eqn:Hc; [|reflexivity].
  exfalso. revert H.
  apply lstrip_of_first;
    [apply white_space_not_empty | now apply is_space_white_space].
Qed.

Lemma lstrip_first s c : first_char (lstrip s) = Some c -> is_space c = false.
Proof.
  unfold lstrip. intros H.
  destruct (is_space c) eqn:Hc; [|reflexivity].
  exfalso. revert H.
  apply lstrip_of_first;
    [apply white_space_not_empty | now apply is_space_white_space].
Qed.

(** [rstrip] keeps the first character, unless it removes everything. *)
Lemma rstrip_first s :
  rstrip s = "" \/ first_char (rstrip s) = first_char s.
Proof.
  unfold rstrip.
  destruct (lstrip_of_last (map reverse white_space) (reverse s)) as [E|E].
  - left. now rewrite E.
  - right. now rewrite first_char_reverse, E, last_char_reverse.
Qed.

(** What [strip] gives neither starts nor ends with white space of
    ASCII. *)
Lemma strip_ends s :
  (forall c, first_char (strip s) = Some c -> is_space c = false)
  /\ (forall c, last_char (strip s) = Some c -> is_space c = false).
Proof.
  unfold strip. split.
  - intros c Hc. destruct (rstrip_first (lstrip s)) as [E|E].
    + rewrite E in Hc. discriminate Hc.
    + rewrite E in Hc. now apply (lstrip_first _ _ Hc).
  - intros c. apply rstrip_last.
Qed.

(** X3.  The description of a returned schema neither starts nor ends
    with white space, and it is empty when the callable has no
    docstring. *)
Theorem description_stripped func schema :
  function_to_schema func = Return schema ->
  (forall c, first_char (description (function schema)) = Some c ->
             is_space c = false)
  /\ (forall c, last_char (description (function schema)) = Some c ->
                is_space c = false)
  /\ (fn_doc func = DocNone -> description (function schema) = "").
Proof.
  intros Hconv.
  destruct (fn_signature func) as [sig|e] eqn:Hs.
  - destruct (function_to_schema_inv func sig schema Hs Hconv)
      as (props & nm & text & _ & _ & _ & Hd & ->).
    cbn [function description].
    unfold doc_stripped in Hd.
    assert (Htext : exists s, text = strip s).
    { destruct (fn_doc func) as [|s|truth e].
      - injection Hd as <-. now exists "".
      - injection Hd as <-. now exists s.
      - destruct truth as [[]|e']; try discriminate Hd.
        injection Hd as <-. now exists "". }
    destruct Htext as [s ->].
    split; [apply strip_ends|]. split; [apply strip_ends|].
    intros Hnone. rewrite Hnone in Hd. now injection Hd as <-.
  - unfold function_to_schema in Hconv. rewrite Hs in Hconv.
    destruct (exn_cls e); try discriminate Hconv.
    destruct (fn_name func); discriminate Hconv.
Qed.

Lemma description_stripped_witness :
  let schema :=
    mk_Schema "function"
      (mk_FunctionSchema "greet" "Greets somebody."
         (mk_ParametersSchema "object"
            [("name", mk_Property "string");
             ("greeting", mk_Property "string")]
            ["name"])) in
  (forall c, first_char (description (function schema)) = Some c ->
             is_space c = false)
  /\ (forall c, last_char (description (function schema)) = Some c ->
                is_space c = false)
  /\ (fn_doc greet = DocNone -> description (function schema) = "").
Proof.
  intros schema. apply (description_stripped greet schema). reflexivity.
Defined.

(** ** How many reasons, and when there is none *)

(** Steps 3 to 6 end without exception exactly when the source text is
    read and neither step 3 nor step 6 raises, and then the store holds
    what the four steps appended, in order. *)
Lemma checks_returns func sig :
  fst (checks func sig []) = Return tt ->
  exists src,
    fn_source func = Return src
    /\ Forall (fun p => fst (check_annotation p []) = Return tt)
         (parameters sig)
    /\ fst (check_return_annotation sig []) = Return tt
    /\ accumulated func sig
       = (flat_map (fun p => appended (check_annotation p)) (parameters sig)
          ++ appended (check_variadic sig)
          ++ (if contains "input(" src then [interactive_reason] else [])
          ++ appended (check_return_annotation sig))%list.
Proof.
  unfold accumulated, appended at 1. rewrite checks_run.
  destruct (for_each (parameters sig) check_annotation [])
    as [[[]|e3] l3] eqn:H3; [|discriminate].
  destruct (fn_source func) as [src|e]; [|discriminate].
  cbn [fst snd]. intros H6. exists src.
  destruct (for_each_returns (parameters sig)) as [HF E];
    [now rewrite H3|].
  rewrite H3 in E. cbn [snd] in E. subst l3.
  repeat split; assumption.
Qed.

Lemma checks_all_return func sig src :
  fn_source func = Return src ->
  Forall (fun p => fst (check_annotation p []) = Return tt) (parameters sig) ->
  fst (check_return_annotation sig []) = Return tt ->
  fst (checks func sig []) = Return tt.
Proof.
  intros Hsrc H3 H6. rewrite checks_run, (for_each_all_return _ H3), Hsrc.
  exact H6.
Qed.

(** Step 3 appends nothing for a parameter exactly when its annotation
    is acceptable, and one reason otherwise. *)
Lemma check_annotation_acceptable p :
  check_annotation p [] = (Return tt, []) <-> acceptable (p_annotation p) = true.
Proof.
  rewrite check_annotation_run. unfold acceptable.
  destruct (eq_empty (p_annotation p)) as [[]|?];
    [split; discriminate| |split; discriminate].
  destruct (in_type_map (p_annotation p)) as [[]|?];
    [tauto| |split; discriminate].
  destruct (isinstance_type (p_annotation p)); cbn [andb].
  - destruct (issubclass_rejected (p_annotation p)) as [[]|?]; cbn [negb];
      try tauto; try (split; discriminate).
    destruct (str_annotation (p_annotation p)); split; discriminate.
  - destruct (str_annotation (p_annotation p)); split; discriminate.
Qed.

Lemma check_annotation_count p :
  fst (check_annotation p []) = Return tt ->
  length (appended (check_annotation p)) = count_of (offending p).
Proof.
  unfold appended, offending, acceptable. rewrite check_annotation_run.
  destruct (eq_empty (p_annotation p)) as [[]|?];
    [reflexivity| |discriminate].
  destruct (in_type_map (p_annotation p)) as [[]|?];
    [reflexivity| |discriminate].
  destruct (isinstance_type (p_annotation p)); cbn [andb].
  - destruct (issubclass_rejected (p_annotation p)) as [[]|?]; cbn [negb];
      try reflexivity; try discriminate.
    destruct (str_annotation (p_annotation p)); [reflexivity|discriminate].
  - destruct (str_annotation (p_annotation p)); [reflexivity|discriminate].
Qed.

Lemma check_return_annotation_acceptable sig :
  check_return_annotation sig [] = (Return tt, [])
  <-> acceptable_return (return_annotation sig) = true.
Proof.
  rewrite check_return_annotation_run. unfold acceptable_return. cbv zeta.
  destruct (in_type_map (return_annotation sig)) as [[]|?];
    [tauto| |split; discriminate].
  destruct (ne_empty (return_annotation sig)) as [[]|?];
    [|tauto|split; discriminate].
  destruct (isinstance_type (return_annotation sig)); cbn [andb].
  - destruct (issubclass_rejected (return_annotation sig)) as [[]|?];
      cbn [negb]; try tauto; try (split; discriminate).
    destruct (str_annotation (return_annotation sig)); split; discriminate.
  - destruct (str_annotation (return_annotation sig)); split; discriminate.
Qed.

Lemma check_return_annotation_count sig :
  fst (check_return_annotation sig []) = Return tt ->
  length (appended (check_return_annotation sig))
  = count_of (offending_return sig).
Proof.
  unfold appended, offending_return, acceptable_return.
  rewrite check_return_annotation_run. cbv zeta.
  destruct (in_type_map (return_annotation sig)) as [[]|?];
    [reflexivity| |discriminate].
  destruct (ne_empty (return_annotation sig)) as [[]|?];
    [|reflexivity|discriminate].
  destruct (isinstance_type (return_annotation sig)); cbn [andb].
  - destruct (issubclass_rejected (return_annotation sig)) as [[]|?];
      cbn [negb]; try reflexivity; try discriminate.
    destruct (str_annotation (return_annotation sig));
      [reflexivity|discriminate].
  - destruct (str_annotation (return_annotation sig));
      [reflexivity|discriminate].
Qed.

Lemma annotation_reasons_count ps :
  Forall (fun p => fst (check_annotation p []) = Return tt) ps ->
  length (flat_map (fun p => appended (check_annotation p)) ps)
  = length (filter offending ps).
Proof.
  induction 1 as [|p ps Hp _ IH]; [reflexivity|].
  simpl. rewrite length_app, IH, (check_annotation_count p Hp).
  now destruct (offending p).
Qed.

(** The number of reasons when steps 3 to 6 end without exception. *)
Lemma accumulated_count func sig src :
  fst (checks func sig []) = Return tt ->
  fn_source func = Return src ->
  length (accumulated func sig)
  = length (filter offending (parameters sig))
    + count_of (existsb (fun p => is_variadic (p_kind p)) (parameters sig))
    + count_of (contains "input(" src)
    + count_of (offending_return sig).
Proof.
  intros Hsteps Hsrc.
  destruct (checks_returns func sig Hsteps) as (src' & Hsrc' & H3 & H6 & ->).
  assert (src' = src) by congruence. subst src'.
  rewrite !length_app, (annotation_reasons_count _ H3),
    variadic_reasons_cases, (check_return_annotation_count sig H6).
  destruct (existsb _ _); destruct (contains "input(" src); simpl; lia.
Qed.

(** A call that returns on a callable whose signature is read went
    through steps 3 to 6 without exception. *)
Lemma returned_steps func and_parse verbose sig r :
  is_callable func = true ->
  fn_signature func = Return sig ->
  is_function_schema_compatible func and_parse verbose = Return r ->
  fst (checks func sig []) = Return tt.
Proof.
  intros Hc Hs Hcall.
  rewrite (call_run func and_parse verbose sig Hc Hs) in Hcall.
  now destruct (fst (checks func sig [])) as [[]|e].
Qed.

(** X4.  The checker accumulates every applicable reason: when a call on
    a callable whose signature is read returns, the list of
    disqualifiers at the end of the call has one entry for each
    parameter whose annotation is not acceptable (it is missing, is not
    a class, or derives from a reject-listed class), one more if some
    parameter is variadic, one more if the source text contains
    ["input("], and one more if the return annotation is not
    acceptable. *)
Theorem every_reason_accumulated func and_parse verbose sig src r :
  is_callable func = true ->
  fn_signature func = Return sig ->
  fn_source func = Return src ->
  is_function_schema_compatible func and_parse verbose = Return r ->
  length (final_disqualifiers func and_parse verbose)
  = length (filter offending (parameters sig))
    + count_of (existsb (fun p => is_variadic (p_kind p)) (parameters sig))
    + count_of (contains "input(" src)
    + count_of (offending_return sig).
Proof.
  intros Hc Hs Hsrc Hcall.
  rewrite (final_disqualifiers_run func and_parse verbose sig Hc Hs).
  apply accumulated_count; [|exact Hsrc].
  apply (returned_steps func and_parse verbose sig r Hc Hs Hcall).
Qed.

Lemma every_reason_accumulated_witness :
  length (final_disqualifiers survey false true) = 3 + 1 + 1 + 1.
Proof.
  apply (every_reason_accumulated survey false true
           (mk_Signature
              [mk_Param "questions" inspect_empty no_default VAR_POSITIONAL;
               mk_Param "scale" (ordinary_object "typing.Tuple[int, int]")
                 no_default KEYWORD_ONLY;
               mk_Param "origin" (ordinary_class "<class 'screen.Pixel'>" true)
                 no_default KEYWORD_ONLY]
              (Class c_tuple))
           "def survey(*questions, scale: Tuple[int, int], origin: Pixel) -> tuple: return tuple(input(q) for q in questions)"
           (Pair false
              (Reasons
                 (join "; "
                    [ "Parameter 'questions' is missing a type annotation.";
                      "Parameter 'scale' has an unrecognized type annotation: typing.Tuple[int, int].";
                      "Parameter 'origin' has an unsupported type: <class 'screen.Pixel'>.";
                      "Function uses *args or **kwargs, which are not supported.";
                      "Function contains an input() call, which requires user interaction.";
                      "Return type '<class 'tuple'>' is unsupported." ])))).
  - reflexivity.
  - reflexivity.
  - reflexivity.
  - reflexivity.
Defined.

Lemma filter_nil_iff {A : Type} (f : A -> bool) (l : list A) :
  filter f l = [] <-> forall x, In x l -> f x = false.
Proof.
  induction l as [|a l IH]; simpl.
  - intuition.
  - destruct (f a) eqn:Ha.
    + split; [discriminate|]. intros H.
      specialize (H a (or_introl eq_refl)). congruence.
    + rewrite IH. split.
      * intros H x [<-|Hx]; auto.
      * intros H x Hx. apply H. now right.
Qed.

Lemma length_zero {A : Type} (l : list A) : length l = 0 -> l = [].
Proof. now destruct l. Qed.

(** What a positive check says of the steps. *)
Lemma judged_compatible_steps func sig :
  is_function_schema_compatible func false false = Return (Plain true) ->
  fn_signature func = Return sig ->
  exists src,
    fn_source func = Return src
    /\ (forall p, In p (parameters sig) ->
                  check_annotation p [] = (Return tt, []))
    /\ existsb (fun p => is_variadic (p_kind p)) (parameters sig) = false
    /\ contains "input(" src = false
    /\ check_return_annotation sig [] = (Return tt, []).
Proof.
  intros Hjudged Hs.
  destruct (judged_compatible_inv func Hjudged)
    as (Hc & sig' & Hs' & Hsteps & Hacc).
  assert (sig' = sig) by congruence. subst sig'.
  destruct (checks_returns func sig Hsteps) as (src & Hsrc & H3 & H6 & E).
  rewrite Hacc in E. symmetry in E.
  apply app_eq_nil in E as [E3 E]. apply app_eq_nil in E as [E4 E].
  apply app_eq_nil in E as [E5 E6].
  exists src. split; [exact Hsrc|]. split; [|split; [|split]].
  - intros p Hp.
    rewrite Forall_forall in H3. specialize (H3 p Hp).
    assert (Hnil : appended (check_annotation p) = []).
    { apply length_zero.
      assert (Hin : incl (appended (check_annotation p))
                      (flat_map (fun p => appended (check_annotation p))
                         (parameters sig))).
      { intros r Hr. apply in_flat_map. now exists p. }
      rewrite E3 in Hin.
      destruct (appended (check_annotation p)) as [|r l]; [reflexivity|].
      destruct (Hin r (or_introl eq_refl)). }
    unfold appended in Hnil.
    destruct (check_annotation p []) as [o l]. cbn [fst snd] in *.
    now subst.
  - rewrite variadic_reasons_cases in E4.
    now destruct (existsb _ _).
  - now destruct (contains "input(" src).
  - unfold appended in E6.
    destruct (check_return_annotation sig []) as [o l]. cbn [fst snd] in *.
    now subst.
Qed.

(** X5.  The plain check returns [True] exactly for a callable whose
    signature and source text are read, whose parameters all carry an
    acceptable annotation (a key of [type_map], or another class that
    derives from no reject-listed class) and are not variadic, whose
    source text does not contain ["input("], and whose return annotation
    is acceptable: absent, a key of [type_map], or another class that
    derives from no reject-listed class. *)
Theorem judged_compatible_iff func :
  is_function_schema_compatible func false false = Return (Plain true)
  <-> is_callable func = true
      /\ exists sig src,
          fn_signature func = Return sig
          /\ fn_source func = Return src
          /\ (forall p,
                 In p (parameters sig) ->
                 acceptable (p_annotation p) = true
                 /\ is_variadic (p_kind p) = false)
          /\ contains "input(" src = false
          /\ acceptable_return (return_annotation sig) = true.
Proof.
  split.
  - intros H. destruct (judged_compatible_inv func H)
      as (Hc & sig & Hs & _ & _).
    destruct (judged_compatible_steps func sig H Hs)
      as (src & Hsrc & H3 & H4 & H5 & H6).
    split; [exact Hc|]. exists sig, src.
    split; [exact Hs|]. split; [exact Hsrc|].
    split; [|split; [exact H5|]].
    + intros p Hp. split.
      * apply check_annotation_acceptable. now apply H3.
      * destruct (is_variadic (p_kind p)) eqn:Hk; [|reflexivity].
        assert (Hex : existsb (fun p => is_variadic (p_kind p))
                        (parameters sig) = true)
          by (apply existsb_exists; now exists p).
        congruence.
    + now apply check_return_annotation_acceptable.
  - intros (Hc & sig & src & Hs & Hsrc & Hps & Hin & Hret).
    apply check_return_annotation_acceptable in Hret.
    assert (H3 : Forall (fun p => check_annotation p [] = (Return tt, []))
                   (parameters sig)).
    { apply Forall_forall. intros p Hp.
      apply check_annotation_acceptable. now apply Hps. }
    assert (Hvar : existsb (fun p => is_variadic (p_kind p))
                     (parameters sig) = false).
    { destruct (existsb _ _) eqn:E; [|reflexivity].
      apply existsb_exists in E as (p & Hp & Hk).
      rewrite (proj2 (Hps p Hp)) in Hk. discriminate Hk. }
    assert (Hflat : flat_map (fun p => appended (check_annotation p))
                      (parameters sig) = []).
    { clear -H3. induction H3 as [|p ps Hp _ IH]; [reflexivity|].
      cbn [flat_map]. rewrite IH. unfold appended. now rewrite Hp. }
    assert (Hsteps : checks func sig [] = (Return tt, [])).
    { rewrite checks_run, for_each_all_return.
      - rewrite Hflat, Hsrc, Hin, variadic_reasons_cases, Hvar.
        unfold appended. now rewrite Hret.
      - eapply Forall_impl; [|exact H3]. intros p Hp. now rewrite Hp. }
    rewrite (call_run func false false sig Hc Hs).
    unfold accumulated, appended. now rewrite Hsteps.
Qed.

(** ** The paths of the checker *)

(** X6.  Asking for the reasons does not change the verdict: when a
    verbose call returns, the call with the same [and_parse] and without
    [verbose] returns too, with the same boolean: the plain boolean where
    the verbose call gave reasons, and the same [(True, schema)] where it
    gave the schema. *)
Theorem verbose_keeps_verdict func and_parse r :
  is_function_schema_compatible func and_parse true = Return r ->
  is_function_schema_compatible func and_parse false
  = Return (without_reasons r).
Proof.
  destruct (is_callable func) eqn:Hc.
  - destruct (fn_signature func) as [sig|e] eqn:Hs.
    + rewrite !(call_run func and_parse _ sig Hc Hs).
      destruct (fst (checks func sig [])); [|discriminate].
      destruct (not_ (accumulated func sig) && and_parse).
      * destruct (function_to_schema func); intros [= <-]; reflexivity.
      * intros [= <-]. reflexivity.
    + rewrite !(call_signature_raises func and_parse _ e Hc Hs).
      destruct (exn_cls e); try discriminate.
      destruct (fn_name func); [|discriminate].
      intros [= <-]. reflexivity.
  - rewrite !(call_not_callable func and_parse _ Hc).
    intros [= <-]. reflexivity.
Qed.

Lemma verbose_keeps_verdict_witness :
  is_function_schema_compatible get_weather false false
  = Return
      (without_reasons
         (Pair false
            (Reasons "Parameter 'location' is missing a type annotation."))).
Proof.
  apply (verbose_keeps_verdict get_weather false). reflexivity.
Defined.

(** A call with [and_parse] that returns a schema has judged the
    function compatible and has converted it. *)
Lemma parsed_call_inv func verbose schema :
  is_function_schema_compatible func true verbose
  = Return (Pair true (Parsed schema)) ->
  is_function_schema_compatible func false false = Return (Plain true)
  /\ function_to_schema func = Return schema.
Proof.
  destruct (is_callable func) eqn:Hc.
  - destruct (fn_signature func) as [sig|e] eqn:Hs.
    + rewrite !(call_run func _ _ sig Hc Hs).
      destruct (fst (checks func sig [])); [|discriminate].
      rewrite andb_true_r, andb_false_r.
      destruct (not_ (accumulated func sig)).
      * destruct (function_to_schema func) as [s|e].
        -- intros [= <-]. now split.
        -- destruct verbose; discriminate.
      * destruct verbose; discriminate.
    + rewrite (call_signature_raises func true verbose e Hc Hs).
      destruct (exn_cls e); try discriminate.
      destruct verbose; [|discriminate].
      destruct (fn_name func); discriminate.
  - rewrite (call_not_callable func true verbose Hc).
    destruct verbose; discriminate.
Qed.

(** What a call with [and_parse] returns for a function judged
    compatible, after the outcome of the conversion. *)
Lemma judged_compatible_call func verbose :
  is_function_schema_compatible func false false = Return (Plain true) ->
  is_function_schema_compatible func true verbose
  = match function_to_schema func with
    | Return schema => Return (Pair true (Parsed schema))
    | Raise e =>
        Return (if verbose
                then Pair false
                       (Reasons
                          ("Function is structurally valid but failed to convert: "
                           ++ exn_str e))
                else Plain false)
    end.
Proof.
  intros Hjudged.
  destruct (judged_compatible_inv func Hjudged)
    as (Hc & sig & Hs & Hsteps & Hacc).
  rewrite (call_run func true verbose sig Hc Hs), Hsteps, Hacc.
  now destruct (function_to_schema func).
Qed.

(** X7.  [and_parse] composes the check and the conversion: a call with
    [and_parse] returns [(True, schema)] exactly when the plain check
    returns [True] and the conversion returns that schema, whether the
    call is verbose or not. *)
Theorem and_parse_composes func verbose schema :
  is_function_schema_compatible func true verbose
  = Return (Pair true (Parsed schema))
  <-> is_function_schema_compatible func false false = Return (Plain true)
      /\ function_to_schema func = Return schema.
Proof.
  split.
  - apply parsed_call_inv.
  - intros [Hjudged Hconv].
    now rewrite (judged_compatible_call func verbose Hjudged), Hconv.
Qed.

(** X8.  [and_parse] matters only for a function judged compatible:
    unless the plain check returns [True], a call with [and_parse] does
    what the call without it does, be it a return or an exception. *)
Theorem and_parse_ignored func verbose :
  is_function_schema_compatible func false false <> Return (Plain true) ->
  is_function_schema_compatible func true verbose
  = is_function_schema_compatible func false verbose.
Proof.
  intros Hnot.
  destruct (is_callable func) eqn:Hc.
  - destruct (fn_signature func) as [sig|e] eqn:Hs.
    + rewrite (call_run func false false sig Hc Hs) in Hnot.
      rewrite !(call_run func _ verbose sig Hc Hs).
      destruct (fst (checks func sig [])); [|reflexivity].
      rewrite andb_false_r in *.
      destruct (not_ (accumulated func sig)); [congruence|reflexivity].
    + now rewrite !(call_signature_raises func _ verbose e Hc Hs).
  - now rewrite !(call_not_callable func _ verbose Hc).
Qed.

Lemma and_parse_ignored_witness :
  is_function_schema_compatible ask true true
  = is_function_schema_compatible ask false true.
Proof.
  apply (and_parse_ignored ask true). discriminate.
Defined.

(** ** The exceptions of the checker *)






(** ** The interactive-input check *)

Lemma prefix_iff needle hay :
  String.prefix needle hay = true <-> exists post, hay = needle ++ post.
Proof.
  revert hay. induction needle as [|a needle IH]; intros hay.
  - split; [intros _; now exists hay | now destruct hay].
  - destruct hay as [|b hay]; simpl.
    + split; [discriminate | intros [post H]; discriminate H].
    + destruct (ascii_dec a b) as [->|Hne].
      * rewrite IH. split; intros [post H]; exists post.
        -- now rewrite H.
        -- now injection H.
      * split; [discriminate|]. intros [post H]. injection H as -> _.
        now contradiction Hne.
Qed.

Lemma contains_unfold needle hay :
  contains needle hay
  = String.prefix needle hay
    || match hay with
       | EmptyString => false
       | String _ hay' => contains needle hay'
       end.
Proof. now destruct hay. Qed.

(** [needle in hay] holds exactly when [needle] occurs somewhere in
    [hay]. *)
Lemma contains_iff needle hay :
  contains needle hay = true <-> exists pre post, hay = pre ++ needle ++ post.
Proof.
  induction hay as [|c hay IH]; rewrite contains_unfold.
  - rewrite orb_false_r, prefix_iff. split.
    + intros [post H]. now exists "", post.
    + intros (pre & post & H). destruct pre as [|a pre]; [|discriminate H].
      now exists post.
  - rewrite orb_true_iff, prefix_iff, IH. split.
    + intros [[post H]|(pre & post & H)].
      * now exists "", post.
      * exists (String c pre), post. simpl. now rewrite H.
    + intros (pre & post & H). destruct pre as [|a pre].
      * left. now exists post.
      * right. injection H as _ H. now exists pre, post.
Qed.

(** The reason about [input()] is in the store exactly when the source
    text was read and contains ["input("]. *)
Lemma interactive_reason_origin func sig :
  In interactive_reason (accumulated func sig)
  <-> fst (for_each (parameters sig) check_annotation []) = Return tt
      /\ exists src, fn_source func = Return src
                     /\ contains "input(" src = true.
Proof.
  unfold accumulated, appended at 1. rewrite checks_run.
  assert (H3 : ~ In interactive_reason
                 (snd (for_each (parameters sig) check_annotation []))).
  { intros H. apply for_each_reasons in H as (p & _ & H).
    apply annotation_reason_shape in H as [rest H]. discriminate H. }
  assert (H4 : ~ In interactive_reason (appended (check_variadic sig))).
  { rewrite variadic_reasons_cases.
    destruct (existsb _ _); cbn [In]; [|tauto].
    intros [H|[]]. discriminate H. }
  assert (H6 : ~ In interactive_reason (appended (check_return_annotation sig))).
  { intros H. apply return_reason_shape in H as (text & _ & H).
    discriminate H. }
  destruct (for_each (parameters sig) check_annotation [])
    as [[[]|e3] l3]; cbn [fst snd] in *.
  - destruct (fn_source func) as [src|e]; cbn [snd]; rewrite !in_app_iff.
    + split.
      * intros [H|[H|[H|H]]]; try contradiction.
        split; [reflexivity|]. exists src. split; [reflexivity|].
        destruct (contains "input(" src); [reflexivity | destruct H].
      * intros (_ & src' & [= <-] & Hc). rewrite Hc.
        right; right; left. now left.
    + split.
      * intros [H|H]; contradiction.
      * intros (_ & src' & Hsrc & _). discriminate Hsrc.
  - split; [contradiction|]. intros [H _]. discriminate H.
Qed.

(** X10.  The check for interactive input is a search in the text: when
    a call on a callable whose signature and source text are read
    returns, the reason about [input()] is among its disqualifiers
    exactly when the characters ["input("] occur somewhere in the source
    text, be it in a call of [input], in the name of another function,
    in a string or in a comment; and then the function is reported
    incompatible. *)
Theorem interactive_check_is_textual func and_parse verbose sig src r :
  is_callable func = true ->
  fn_signature func = Return sig ->
  fn_source func = Return src ->
  is_function_schema_compatible func and_parse verbose = Return r ->
  (In interactive_reason (final_disqualifiers func and_parse verbose)
   <-> exists pre post, src = pre ++ "input(" ++ post)
  /\ ((exists pre post, src = pre ++ "input(" ++ post) ->
      r = if verbose
          then Pair false
                 (Reasons
                    (join "; " (final_disqualifiers func and_parse verbose)))
          else Plain false).
Proof.
  intros Hc Hs Hsrc Hcall.
  pose proof (returned_steps func and_parse verbose sig r Hc Hs Hcall)
    as Hsteps.
  rewrite (final_disqualifiers_run func and_parse verbose sig Hc Hs).
  assert (Hiff : In interactive_reason (accumulated func sig)
                 <-> exists pre post, src = pre ++ "input(" ++ post).
  { rewrite interactive_reason_origin, <- contains_iff. split.
    - intros (_ & src' & Hsrc' & Hin). congruence.
    - intros Hin. split; [|now exists src].
      rewrite checks_run in Hsteps.
      now destruct (for_each (parameters sig) check_annotation [])
        as [[[]|e3] l3]. }
  split; [exact Hiff|].
  intros Hocc. apply Hiff in Hocc.
  assert (Hne : accumulated func sig <> []).
  { intros E. rewrite E in Hocc. destruct Hocc. }
  rewrite (checker_reports_reasons func and_parse verbose sig Hc Hs Hsteps Hne)
    in Hcall.
  now injection Hcall as <-.
Qed.

Lemma interactive_check_is_textual_witness :
  (In interactive_reason (final_disqualifiers check false true)
   <-> exists pre post,
       "def check(text: str) -> bool: return validate_input(text)"
       = pre ++ "input(" ++ post)
  /\ ((exists pre post,
          "def check(text: str) -> bool: return validate_input(text)"
          = pre ++ "input(" ++ post) ->
      Pair false
        (Reasons
           "Function contains an input() call, which requires user interaction.")
      = Pair false (Reasons (join "; " (final_disqualifiers check false true)))).
Proof.
  apply (interactive_check_is_textual check false true
           (mk_Signature [plain "text" (Class c_str)] (Class c_bool))
           "def check(text: str) -> bool: return validate_input(text)").
  - reflexivity.
  - reflexivity.
  - reflexivity.
  - reflexivity.
Defined.

(** * Further properties of the checker and of the conversion together *)

(** ** The reason of each kind of parameter *)

(** X18.  Every offending parameter is named in the report, with the
    reason of its kind.  When a call on a callable whose signature is
    read returns, its disqualifiers hold, for a parameter whose
    annotation compares equal to [inspect._empty], that its annotation
    is missing; for a parameter whose annotation is present, is not a
    key of [type_map] and is not a class, that the annotation is
    unrecognized, with its text; and for a parameter whose annotation is
    present, is not a key of [type_map] and is a class that derives from
    a reject-listed class, that the type is unsupported, with its
    text. *)
Theorem parameter_reasons func and_parse verbose sig p r :
  is_callable func = true ->
  fn_signature func = Return sig ->
  In p (parameters sig) ->
  is_function_schema_compatible func and_parse verbose = Return r ->
  (eq_empty (p_annotation p) = Return true ->
   In (missing_reason (p_name p)) (final_disqualifiers func and_parse verbose))
  /\ (eq_empty (p_annotation p) = Return false ->
      in_type_map (p_annotation p) = Return false ->
      isinstance_type (p_annotation p) = false ->
      exists text,
        str_annotation (p_annotation p) = Return text
        /\ In (unrecognized_reason (p_name p) text)
             (final_disqualifiers func and_parse verbose))
  /\ (eq_empty (p_annotation p) = Return false ->
      in_type_map (p_annotation p) = Return false ->
      isinstance_type (p_annotation p) = true ->
      issubclass_rejected (p_annotation p) = Return true ->
      exists text,
        str_annotation (p_annotation p) = Return text
        /\ In (unsupported_reason (p_name p) text)
             (final_disqualifiers func and_parse verbose)).
Proof.
  intros Hc Hs Hin Hcall.
  pose proof (returned_steps func and_parse verbose sig r Hc Hs Hcall)
    as Hsteps.
  rewrite (final_disqualifiers_run func and_parse verbose sig Hc Hs).
  pose proof (annotation_reason_accumulated func sig p) as Hstep.
  destruct (checks_returns func sig Hsteps) as (_ & _ & H3 & _ & _).
  rewrite Forall_forall in H3. specialize (H3 p Hin).
  unfold appended in Hstep. rewrite check_annotation_run in H3, Hstep.
  split; [|split].
  - intros Ha. apply Hstep; [exact Hsteps | exact Hin|].
    rewrite Ha. now left.
  - intros Ha Hm Ht. rewrite Ha, Hm, Ht in H3, Hstep.
    destruct (str_annotation (p_annotation p)) as [text|e];
      [|discriminate H3].
    exists text. split; [reflexivity|].
    apply Hstep; [exact Hsteps | exact Hin | now left].
  - intros Ha Hm Ht Hrej. rewrite Ha, Hm, Ht, Hrej in H3, Hstep.
    destruct (str_annotation (p_annotation p)) as [text|e];
      [|discriminate H3].
    exists text. split; [reflexivity|].
    apply Hstep; [exact Hsteps | exact Hin | now left].
Qed.

Lemma parameter_reasons_witness :
  In (missing_reason "questions") (final_disqualifiers survey false true)
  /\ (exists text,
         str_annotation (ordinary_object "typing.Tuple[int, int]")
         = Return text
         /\ In (unrecognized_reason "scale" text)
              (final_disqualifiers survey false true))
  /\ (exists text,
         str_annotation (ordinary_class "<class 'screen.Pixel'>" true)
         = Return text
         /\ In (unsupported_reason "origin" text)
              (final_disqualifiers survey false true)).
Proof.
  pose (sig :=
          mk_Signature
            [mk_Param "questions" inspect_empty no_default VAR_POSITIONAL;
             mk_Param "scale" (ordinary_object "typing.Tuple[int, int]")
               no_default KEYWORD_ONLY;
             mk_Param "origin" (ordinary_class "<class 'screen.Pixel'>" true)
               no_default KEYWORD_ONLY]
            (Class c_tuple)).
  pose (r := Pair false
               (Reasons
                  (join "; "
                     [ "Parameter 'questions' is missing a type annotation.";
                       "Parameter 'scale' has an unrecognized type annotation: typing.Tuple[int, int].";
                       "Parameter 'origin' has an unsupported type: <class 'screen.Pixel'>.";
                       "Function uses *args or **kwargs, which are not supported.";
                       "Function contains an input() call, which requires user interaction.";
                       "Return type '<class 'tuple'>' is unsupported." ]))).
  split; [|split].
  - apply (parameter_reasons survey false true sig
             (mk_Param "questions" inspect_empty no_default VAR_POSITIONAL) r);
      try reflexivity.
    now left.
  - apply (parameter_reasons survey false true sig
             (mk_Param "scale" (ordinary_object "typing.Tuple[int, int]")
                no_default KEYWORD_ONLY) r);
      try reflexivity.
    right. now left.
  - apply (parameter_reasons survey false true sig
             (mk_Param "origin" (ordinary_class "<class 'screen.Pixel'>" true)
                no_default KEYWORD_ONLY) r);
      try reflexivity.
    right. right. now left.
Defined.

(** The text of the reason is the [str()] of the annotation, which is
    not always of the form [<class '...'>]: an [Enum] class prints as
    [<enum '...'>]. *)
Example enum_annotation_reason :
  is_function_schema_compatible
    {| is_callable := true;
       fn_name := Return "turn";
       fn_doc := DocNone;
       fn_signature :=
         Return (mk_Signature
                   [plain "corner" (ordinary_class "<enum 'Corner'>" false);
                    plain "by" (ordinary_class "<class 'geometry.Angle'>" true)]
                   inspect_empty);
       fn_source := Return "def turn(corner: Corner, by: Angle): return corner" |}
    false true
  = Return
      (Pair false
         (Reasons
            "Parameter 'by' has an unsupported type: <class 'geometry.Angle'>.")).
Proof. reflexivity. Qed.

(** ** A positive check and the conversion *)

(** What a positive check says of each parameter. *)
Lemma judged_compatible_parameters func sig p :
  is_function_schema_compatible func false false = Return (Plain true) ->
  fn_signature func = Return sig ->
  In p (parameters sig) ->
  acceptable (p_annotation p) = true.
Proof.
  intros Hjudged Hs Hin.
  destruct (judged_compatible_steps func sig Hjudged Hs)
    as (src & _ & H3 & _).
  apply check_annotation_acceptable. now apply H3.
Qed.

(** X19.  A positive check does not mean that every annotation has a
    schema type of its own.  In a schema that the checker returns, a
    parameter whose annotation is not a key of [type_map] is typed
    ["string"], and such a parameter is annotated with a class that
    derives from no reject-listed class: it is never a parameter without
    annotation, nor one whose annotation is not a class. *)
Theorem returned_schema_string_parameters func verbose schema sig p :
  is_function_schema_compatible func true verbose
  = Return (Pair true (Parsed schema)) ->
  fn_signature func = Return sig ->
  distinct_names sig ->
  In p (parameters sig) ->
  in_type_map (p_annotation p) = Return false ->
  dict_get string_dec (properties (fs_parameters (function schema)))
    (p_name p)
  = Some (mk_Property "string")
  /\ eq_empty (p_annotation p) = Return false
  /\ isinstance_type (p_annotation p) = true
  /\ issubclass_rejected (p_annotation p) = Return false.
Proof.
  intros Hcall Hs Hnd Hin Hunmapped.
  apply parsed_call_inv in Hcall as [Hjudged Hconv].
  split.
  - destruct (returned_property func sig schema p Hs Hnd Hconv Hin)
      as (t & Hget & Ht).
    rewrite Hget. unfold schema_type_of in Ht. unfold in_type_map in Hunmapped.
    destruct (lookup (p_annotation p)) as [[found|]|e];
      try discriminate Hunmapped.
    now injection Ht as <-.
  - pose proof (judged_compatible_parameters func sig p Hjudged Hs Hin)
      as Hacc.
    unfold acceptable in Hacc. rewrite Hunmapped in Hacc.
    destruct (eq_empty (p_annotation p)) as [[]|e]; try discriminate Hacc.
    destruct (isinstance_type (p_annotation p)); [|discriminate Hacc].
    destruct (issubclass_rejected (p_annotation p)) as [[]|e];
      try discriminate Hacc.
    repeat split.
Qed.

Lemma returned_schema_string_parameters_witness :
  let schema :=
    mk_Schema "function"
      (mk_FunctionSchema "move" "Moves a point."
         (mk_ParametersSchema "object"
            [("point", mk_Property "string"); ("by", mk_Property "number")]
            ["point"; "by"])) in
  let point := plain "point" (ordinary_class "<class 'geometry.Point'>" false) in
  dict_get string_dec (properties (fs_parameters (function schema)))
    (p_name point)
  = Some (mk_Property "string")
  /\ eq_empty (p_annotation point) = Return false
  /\ isinstance_type (p_annotation point) = true
  /\ issubclass_rejected (p_annotation point) = Return false.
Proof.
  intros schema point.
  apply (returned_schema_string_parameters move true schema
           (mk_Signature
              [point; plain "by" (Class c_float)]
              (ordinary_class "<class 'geometry.Point'>" false))).
  - reflexivity.
  - reflexivity.
  - apply distinct_two. discriminate.
  - now left.
  - reflexivity.
Defined.




(** A default whose comparison has no truth value, and a docstring that
    is a number: the check is positive and the conversion fails. *)
Example conversion_fails_on_default_and_docstring :
  let sig :=
    mk_Signature
      [mk_Param "weights" (Class c_list)
         (value "array([1, 2])"
            (Raise (mk_exn ValueError
                      "The truth value of an array with more than one element is ambiguous. Use a.any() or a.all()")))
         POSITIONAL_OR_KEYWORD]
      (Class c_float) in
  is_function_schema_compatible
    {| is_callable := true; fn_name := Return "mean"; fn_doc := DocNone;
       fn_signature := Return sig;
       fn_source := Return "def mean(weights: list = array([1, 2])) -> float: return sum(weights) / len(weights)" |}
    true true
  = Return
      (Pair false
         (Reasons
            "Function is structurally valid but failed to convert: The truth value of an array with more than one element is ambiguous. Use a.any() or a.all()"))
  /\ is_function_schema_compatible
       {| is_callable := true; fn_name := Return "mean";
          fn_doc :=
            DocObject (Return true)
              (mk_exn AttributeError "'int' object has no attribute 'strip'");
          fn_signature := Return (mk_Signature [] (Class c_float));
          fn_source := Return "def mean() -> float: return 0.0" |}
       true true
     = Return
         (Pair false
            (Reasons
               "Function is structurally valid but failed to convert: 'int' object has no attribute 'strip'")).
Proof. split; reflexivity. Qed.
(** * Properties of the functions around the checker *)

(** ** Traces *)

Lemma frames_ret {A : Type} (a : A) : frames (ret a).
Proof. intros w tr. simpl. now rewrite app_nil_r. Qed.

Lemma frames_raise {A : Type} (e : exception) : frames (@raise A e).
Proof. intros w tr. unfold raise. simpl. now rewrite app_nil_r. Qed.

Lemma frames_bind {A B : Type} (c : IO A) (k : A -> IO B) :
  frames c -> (forall a, frames (k a)) -> frames (bind c k).
Proof.
  intros Hc Hk w tr. simpl. rewrite (Hc w tr).
  destruct (c w []) as [[a|e] new]; simpl.
  - rewrite (Hk a w (tr ++ new)%list), (Hk a w new).
    simpl. now rewrite app_assoc.
  - reflexivity.
Qed.

Lemma frames_try_except {A : Type} (c : IO A) (h : exception -> IO A) :
  frames c -> (forall e, frames (h e)) -> frames (try_except c h).
Proof.
  intros Hc Hh w tr. unfold try_except. rewrite (Hc w tr).
  destruct (c w []) as [[a|e] new]; simpl.
  - reflexivity.
  - destruct (exc_is_Exception e); [|reflexivity].
    rewrite (Hh e w (tr ++ new)%list), (Hh e w new).
    simpl. now rewrite app_assoc.
Qed.

Lemma frames_call {A : Type} (c : outcome A) : frames (call c).
Proof.
  intros w tr. unfold call. destruct c; simpl; now rewrite app_nil_r.
Qed.

Lemma frames_print text : frames (print text).
Proof. intros w tr. reflexivity. Qed.

Lemma frames_input prompt : frames (input prompt).
Proof. intros w tr. reflexivity. Qed.

Lemma frames_OpenAI : frames OpenAI.
Proof. intros w tr. reflexivity. Qed.

Lemma frames_chat_completions_create request :
  frames (chat_completions_create request).
Proof. intros w tr. reflexivity. Qed.

Lemma frames_exec code : frames (exec code).
Proof.
  destruct code; [intros w tr; reflexivity | apply frames_raise].
Qed.

Lemma frames_write_tools path final : frames (write_tools path final).
Proof.
  intros w tr. unfold write_tools.
  destruct (open_for_writing w path); simpl;
    [reflexivity | now rewrite app_nil_r].
Qed.

Lemma frames_read_python_file path : frames (read_python_file path).
Proof.
  intros w tr. unfold read_python_file.
  destruct (path_exists w path); simpl;
    [reflexivity | now rewrite app_nil_r].
Qed.

Create HintDb frames.
#[local] Hint Resolve frames_ret frames_raise frames_call frames_print
  frames_input frames_OpenAI frames_chat_completions_create frames_exec
  frames_write_tools frames_read_python_file : frames.

Ltac frames :=
  repeat first
    [ progress auto with frames
    | apply frames_bind; [|intros]
    | apply frames_try_except; [|intros]
    | match goal with
      | |- frames (if ?b then _ else _) => destruct b
      | |- frames (match ?x with _ => _ end) => destruct x
      end ].

Lemma frames_validate tool generated_function :
  frames (validate tool generated_function).
Proof.
  unfold validate, next_callable, unpack. frames.
Qed.

Lemma frames_generate_tools tools final : frames (generate_tools tools final).
Proof.
  revert final. induction tools as [|tool tools IH]; intros final;
    cbn [generate_tools].
  - apply frames_ret.
  - apply frames_bind; [apply frames_chat_completions_create|].
    intros generated_function.
    apply frames_bind; [apply frames_print|]. intros _.
    apply frames_bind; [apply frames_print|]. intros _.
    apply frames_bind; [apply frames_validate|]. intros passed.
    apply IH.
Qed.

Lemma frames_create_tools_from_analysis script_analysis file_path :
  frames (create_tools_from_analysis script_analysis file_path).
Proof.
  unfold create_tools_from_analysis.
  apply frames_bind; [apply frames_print|]. intros _.
  apply frames_bind; [apply frames_print|]. intros _.
  apply frames_bind; [apply frames_input|]. intros answer.
  destruct (negb _); [apply frames_print|].
  apply frames_bind; [apply frames_OpenAI|]. intros _.
  apply frames_bind; [apply frames_generate_tools|]. intros final.
  destruct final; [apply frames_ret|].
  apply frames_bind; [apply frames_write_tools|]. intros _.
  apply frames_print.
Qed.

Lemma frames_analyze_python_script file_path :
  frames (analyze_python_script file_path).
Proof. unfold analyze_python_script. frames. Qed.


(** ** The validation of a generated function *)

(** A verbose check without [and_parse] gives [True] exactly when the
    plain check does. *)
Lemma verbose_true_iff_plain_true func :
  (exists p, is_function_schema_compatible func false true
             = Return (Pair true p))
  <-> is_function_schema_compatible func false false = Return (Plain true).
Proof.
  destruct (is_callable func) eqn:Hc.
  - destruct (fn_signature func) as [sig|e] eqn:Hs.
    + rewrite !(call_run func false _ sig Hc Hs).
      destruct (fst (checks func sig []));
        [|split; [intros [p H]; discriminate H | discriminate]].
      rewrite andb_false_r.
      destruct (not_ (accumulated func sig)); split.
      * reflexivity.
      * intros _. eexists. reflexivity.
      * intros [p H]. discriminate H.
      * discriminate.
    + rewrite !(call_signature_raises func false _ e Hc Hs).
      split.
      * intros [p H]. destruct (exn_cls e); try discriminate H.
        destruct (fn_name func); discriminate H.
      * destruct (exn_cls e); discriminate.
  - rewrite !(call_not_callable func false _ Hc).
    split; [intros [p H]; discriminate H | discriminate].
Qed.

(** A text passes step 2 exactly when [exec] of it succeeds and the
    first callable it leaves is judged compatible. *)
Lemma passes_validation_iff w text :
  passes_validation w text = true
  <-> exists values generated_func,
      exec_values w text = Done values
      /\ find is_callable values = Some generated_func
      /\ is_function_schema_compatible generated_func false false
         = Return (Plain true).
Proof.
  unfold passes_validation. split.
  - destruct (exec_values w text) as [values|e] eqn:Hexec; [|discriminate].
    destruct (find is_callable values) as [f|] eqn:Hfind; [|discriminate].
    destruct (is_function_schema_compatible f false true)
      as [[b|[] p]|e] eqn:Hcall; try discriminate.
    intros _. exists values, f.
    split; [reflexivity|]. split; [exact Hfind|].
    apply verbose_true_iff_plain_true. now exists p.
  - intros (values & f & -> & -> & Hplain).
    apply verbose_true_iff_plain_true in Hplain as [p ->]. reflexivity.
Qed.

(** What step 2 answers for a generated function, when it answers. *)
Lemma validate_result tool generated_function w passed :
  fst (validate tool generated_function w []) = Done passed ->
  passed = match generated_function with
           | Some text => passes_validation w text
           | None => false
           end.
Proof.
  unfold validate, try_except, exec, next_callable, unpack, call,
    passes_validation.
  destruct generated_function as [text|]; [|now intros [= <-]].
  cbn [bind Monad_IO ret]. cbn [app].
  destruct (exec_values w text) as [values|e].
  - destruct (find is_callable values) as [f|].
    + cbn [ret Monad_IO raise].
      destruct (is_function_schema_compatible f false true) as [r|e].
      * destruct r as [b|b p]; cbn [raise exc_is_Exception];
          [now intros [= <-]|].
        destruct b; cbn [fst negb]; now intros [= <-].
      * cbn [of_exn exc_is_Exception]. now intros [= <-].
    + cbn [raise exc_is_Exception]. now intros [= <-].
  - destruct (exc_is_Exception e); [now intros [= <-] | discriminate].
Qed.

(** Step 2 sends no request and writes no file. *)
Lemma validate_trace tool generated_function w :
  filter is_file_written (snd (validate tool generated_function w [])) = []
  /\ filter is_request (snd (validate tool generated_function w [])) = [].
Proof.
  unfold validate, try_except, exec, next_callable, unpack, call.
  destruct generated_function as [text|]; [|split; reflexivity].
  cbn [bind Monad_IO ret]. cbn [app].
  destruct (exec_values w text) as [values|e].
  - destruct (find is_callable values) as [f|].
    + cbn [ret Monad_IO raise].
      destruct (is_function_schema_compatible f false true) as [r|e].
      * destruct r as [b|b p]; [split; reflexivity|].
        destruct b; split; reflexivity.
      * split; reflexivity.
    + split; reflexivity.
  - destruct (exc_is_Exception e); split; reflexivity.
Qed.
(** ** The loop over the tools *)

(** One turn of the loop, on the empty trace. *)
Lemma generate_tools_cons tool tools final w :
  generate_tools (tool :: tools) final w []
  = match completion w (tool_request tool) with
    | Failed e => (Failed e, [Requested (tool_request tool)])
    | Done generated_function =>
        let pre :=
          [Requested (tool_request tool);
           Printed (nl ++ "Generated Function for " ++ tool_name tool ++ ":"
                    ++ nl);
           Printed (str_optional generated_function)] in
        match validate tool generated_function w [] with
        | (Failed e, new) => (Failed e, (pre ++ new)%list)
        | (Done passed, new) =>
            let rest :=
              generate_tools tools
                (match passed, generated_function with
                 | true, Some text => (final ++ [text])%list
                 | _, _ => final
                 end) w [] in
            (fst rest, (pre ++ new ++ snd rest)%list)
        end
    end.
Proof.
  cbn [generate_tools bind Monad_IO].
  unfold chat_completions_create, print. cbn [app].
  destruct (completion w (tool_request tool)) as [gf|e]; [|reflexivity].
  rewrite (frames_validate tool gf w).
  destruct (validate tool gf w []) as [[passed|e] new]; cbn [fst snd];
    [|reflexivity].
  now rewrite (frames_generate_tools tools _ w), <- app_assoc.
Qed.


(** The loop writes no file, and when it ends it has added to
    [final_tool_definitions] the completions that pass the validation,
    in the order of the tools; and then every request was answered. *)
Lemma generate_tools_kept tools final w :
  filter is_file_written (snd (generate_tools tools final w [])) = []
  /\ forall final',
      fst (generate_tools tools final w []) = Done final' ->
      final' = (final ++ validated w tools)%list
      /\ Forall
           (fun tool =>
              exists generated_function,
                completion w (tool_request tool) = Done generated_function)
           tools.
Proof.
  revert final. induction tools as [|tool tools IH]; intros final.
  - split; [reflexivity|]. simpl. intros final' [= <-].
    split; [now rewrite app_nil_r | constructor].
  - rewrite generate_tools_cons. cbn [validated flat_map].
    fold (validated w tools).
    destruct (completion w (tool_request tool)) as [gf|e] eqn:Hgf.
    + cbv zeta.
      pose proof (validate_result tool gf w) as Hpass.
      pose proof (validate_trace tool gf w) as [Hvtr _].
      destruct (validate tool gf w []) as [[passed|e] new];
        cbn [fst snd] in *.
      * destruct (IH (match passed, gf with
                      | true, Some text => (final ++ [text])%list
                      | _, _ => final
                      end)) as [IHtr IHkept].
        split.
        -- rewrite !filter_app, Hvtr, IHtr. reflexivity.
        -- intros final' Hfinal.
           destruct (IHkept final' Hfinal) as [-> HF].
           split; [|constructor; [now exists gf | exact HF]].
           rewrite (Hpass passed eq_refl).
           destruct gf as [text|]; [|reflexivity].
           destruct (passes_validation w text); [|reflexivity].
           now rewrite <- app_assoc.
      * split; [|discriminate].
        rewrite filter_app, Hvtr. reflexivity.
    + split; [reflexivity | discriminate].
Qed.
(** ** [create_tools_from_analysis] on the empty trace *)

Lemma create_tools_run script_analysis file_path w :
  create_tools_from_analysis script_analysis file_path w []
  = let head :=
      [Printed (nl ++ "--- AI Analysis of Python Script ---");
       Printed (str_optional script_analysis);
       Asked consent_prompt] in
    match stdin w consent_prompt with
    | Failed e => (Failed e, head)
    | Done answer =>
        if negb (String.eqb (lower (strip answer)) "y") then
          (Done tt, (head ++ [Printed "Exiting without modifications."])%list)
        else
          match new_client w with
          | Failed e => (Failed e, (head ++ [ClientCreated])%list)
          | Done _ =>
              let loop :=
                generate_tools (extract_tools_from_analysis None) [] w [] in
              match fst loop with
              | Failed e =>
                  (Failed e, (head ++ ClientCreated :: snd loop)%list)
              | Done [] => (Done tt, (head ++ ClientCreated :: snd loop)%list)
              | Done (d :: final) =>
                  let new_file_path := replace ".py" "_tools.py" file_path in
                  match open_for_writing w new_file_path with
                  | Failed e =>
                      (Failed e, (head ++ ClientCreated :: snd loop)%list)
                  | Done _ =>
                      (Done tt,
                       (head ++ ClientCreated :: snd loop
                        ++ [FileWritten new_file_path
                              (tools_file_content (d :: final));
                            Printed
                              (nl ++ "✅ Tools successfully written to "
                               ++ new_file_path)])%list)
                  end
              end
          end
    end.
Proof.
  unfold create_tools_from_analysis.
  cbn [bind Monad_IO]. unfold print at 1 2. unfold input. cbn [app].
  destruct (stdin w consent_prompt) as [answer|e]; [|reflexivity].
  destruct (negb (String.eqb (lower (strip answer)) "y")); [reflexivity|].
  unfold OpenAI at 1.
  destruct (new_client w) as [[]|e]; [|reflexivity].
  change (extract_tools_from_analysis script_analysis)
    with (extract_tools_from_analysis None).
  rewrite (frames_generate_tools (extract_tools_from_analysis None) [] w).
  cbv zeta.
  destruct (generate_tools (extract_tools_from_analysis None) [] w [])
    as [[final|e] new]; cbn [fst snd]; [|reflexivity].
  destruct final as [|d final]; [reflexivity|].
  unfold write_tools, print.
  destruct (open_for_writing w (replace ".py" "_tools.py" file_path))
    as [[]|e]; [|reflexivity].
  cbn [app]. rewrite <- !app_assoc. reflexivity.
Qed.

Lemma filter_head_no_write script_analysis :
  filter is_file_written
    [Printed (nl ++ "--- AI Analysis of Python Script ---");
     Printed (str_optional script_analysis);
     Asked consent_prompt]
  = [].
Proof. reflexivity. Qed.


(** A completion that the loop keeps passes the validation. *)
Lemma validated_passes w tools text :
  In text (validated w tools) -> passes_validation w text = true.
Proof.
  unfold validated. intros Hin. apply in_flat_map in Hin as (tool & _ & Hin).
  destruct (completion w (tool_request tool)) as [[text'|]|e];
    try contradiction.
  destruct (passes_validation w text') eqn:Hp; [|contradiction].
  destruct Hin as [<-|[]]. exact Hp.
Qed.

(** X11.  What [create_tools_from_analysis] writes is what went through
    the check.  A run writes at most one file.  When it writes one, the
    user has answered [y], every request was answered, the path is the
    one of the script with [".py"] replaced by ["_tools.py"], and the
    content is made of all the completions that pass the validation and
    of nothing else, in the order of the tools, each followed by two
    line feeds; a completion passes the validation when [exec] of it
    succeeds and the first callable that it leaves is judged
    compatible. *)
Theorem written_tools_passed_validation script_analysis file_path w :
  let tools := extract_tools_from_analysis script_analysis in
  let trace := snd (create_tools_from_analysis script_analysis file_path w [])
  in
  filter is_file_written trace = []
  \/ (filter is_file_written trace
      = [FileWritten (replace ".py" "_tools.py" file_path)
           (tools_file_content (validated w tools))]
      /\ validated w tools <> []
      /\ Forall
           (fun text =>
              exists values generated_func,
                exec_values w text = Done values
                /\ find is_callable values = Some generated_func
                /\ is_function_schema_compatible generated_func false false
                   = Return (Plain true))
           (validated w tools)
      /\ Forall
           (fun tool =>
              exists generated_function,
                completion w (tool_request tool) = Done generated_function)
           tools
      /\ exists answer,
          stdin w consent_prompt = Done answer /\ lower (strip answer) = "y").
Proof.
  cbv zeta. rewrite create_tools_run. cbv zeta.
  change (extract_tools_from_analysis script_analysis)
    with (extract_tools_from_analysis None).
  destruct (stdin w consent_prompt) as [answer|e]; [|now left].
  destruct (String.eqb (lower (strip answer)) "y") eqn:Hy; [|now left].
  apply String.eqb_eq in Hy. cbn [negb].
  destruct (new_client w) as [[]|e]; [|now left].
  destruct (generate_tools_kept (extract_tools_from_analysis None) [] w)
    as [Htr Hkept].
  destruct (fst (generate_tools (extract_tools_from_analysis None) [] w []))
    as [final|e] eqn:Hloop; cbn [snd].
  - destruct final as [|d final]; cbn [snd].
    + left. rewrite filter_app. cbn [filter is_file_written]. exact Htr.
    + destruct (open_for_writing w (replace ".py" "_tools.py" file_path))
        as [[]|e]; cbn [snd].
      * right. destruct (Hkept (d :: final) eq_refl) as [E HF].
        cbn [app] in E. rewrite <- E.
        split; [|split; [discriminate|split; [|split]]].
        -- rewrite filter_app. cbn [filter is_file_written].
           rewrite filter_app, Htr. reflexivity.
        -- rewrite E. apply Forall_forall. intros text Hin.
           apply passes_validation_iff.
           apply (validated_passes w (extract_tools_from_analysis None)).
           exact Hin.
        -- exact HF.
        -- now exists answer.
      * left. rewrite filter_app. cbn [filter is_file_written]. exact Htr.
  - left. rewrite filter_app. cbn [filter is_file_written]. exact Htr.
Qed.

Example imported_tool_written :
  filter is_file_written
    (snd (create_tools_from_analysis (Some "analysis") "script.py"
            world_imported []))
  = [FileWritten "script_tools.py"
       (tools_file_content
          ["from tools import add_numbers"; "from tools import add_numbers"])].
Proof. reflexivity. Qed.

(** The answer is stripped of the white space of Unicode: [y] after a
    no-break space is a consent. *)
Example no_break_space_is_stripped :
  filter is_file_written
    (snd (create_tools_from_analysis (Some "analysis") "script.py"
            world_no_break_space []))
  = [FileWritten "script_tools.py"
       (tools_file_content
          ["from tools import add_numbers"; "from tools import add_numbers"])].
Proof. reflexivity. Qed.

(** X12.  In a world where a callable left by [exec] never has a source
    text that [inspect.getsource] retrieves, as is the case of the
    functions that the executed text defines, [create_tools_from_analysis]
    writes no file, whatever the user answers and whatever the model
    generates: a generated function never passes the validation. *)
Theorem exec_defined_never_written script_analysis file_path w :
  (forall text values generated_func,
      exec_values w text = Done values ->
      find is_callable values = Some generated_func ->
      exists e, fn_source generated_func = Raise e) ->
  filter is_file_written
    (snd (create_tools_from_analysis script_analysis file_path w []))
  = [].
Proof.
  intros Hexec. rewrite create_tools_run. cbv zeta.
  destruct (stdin w consent_prompt) as [answer|e]; [|reflexivity].
  destruct (negb (String.eqb (lower (strip answer)) "y")); [reflexivity|].
  destruct (new_client w) as [[]|e]; [|reflexivity].
  destruct (generate_tools_kept (extract_tools_from_analysis None) [] w)
    as [Htr Hkept].
  destruct (fst (generate_tools (extract_tools_from_analysis None) [] w []))
    as [final|e] eqn:Hloop; cbn [snd].
  - destruct final as [|d final]; cbn [snd].
    + rewrite filter_app. cbn [filter is_file_written]. exact Htr.
    + exfalso.
      destruct (Hkept (d :: final) eq_refl) as [E _]. cbn [app] in E.
      assert (Hd : In d (validated w (extract_tools_from_analysis None)))
        by (rewrite <- E; now left).
      apply validated_passes in Hd.
      apply passes_validation_iff in Hd as (values & f & Hv & Hf & Hplain).
      destruct (Hexec d values f Hv Hf) as [e Hsrc].
      destruct (judged_compatible_inv f Hplain) as (_ & sig & Hs & _).
      destruct (judged_compatible_steps f sig Hplain Hs) as (src & Hsrc' & _).
      congruence.
  - rewrite filter_app. cbn [filter is_file_written]. exact Htr.
Qed.
Lemma exec_defined_never_written_witness :
  filter is_file_written
    (snd (create_tools_from_analysis (Some "analysis") "script.py"
            world_exec_defined []))
  = [].
Proof.
  apply (exec_defined_never_written (Some "analysis") "script.py"
           world_exec_defined).
  intros text values generated_func Hv Hf.
  injection Hv as <-. injection Hf as <-.
  now exists no_source.
Defined.

(** X13.  The analysis is only shown: for a given world and path, the
    outcome of [create_tools_from_analysis] and all the events after the
    second one are the same for every analysis; in particular the requests
    sent to the model do not depend on it. *)
Theorem analysis_is_only_printed file_path w :
  exists out rest,
    forall script_analysis,
      create_tools_from_analysis script_analysis file_path w []
      = (out,
         Printed (nl ++ "--- AI Analysis of Python Script ---")
         :: Printed (str_optional script_analysis) :: rest).
Proof.
  exists (fst (create_tools_from_analysis None file_path w [])).
  exists (skipn 2 (snd (create_tools_from_analysis None file_path w []))).
  intros script_analysis. rewrite !create_tools_run. cbv zeta.
  destruct (stdin w consent_prompt) as [answer|e]; [|reflexivity].
  destruct (negb (String.eqb (lower (strip answer)) "y")); [reflexivity|].
  destruct (new_client w) as [[]|e]; [|reflexivity].
  destruct (fst (generate_tools (extract_tools_from_analysis None) [] w []))
    as [final|e]; [|reflexivity].
  destruct final as [|d final]; [reflexivity|].
  now destruct (open_for_writing w (replace ".py" "_tools.py" file_path))
    as [[]|e].
Qed.

(** X14.  Without the answer [y] nothing leaves the terminal: when the
    answer, stripped and in lower case, is not ["y"], the function prints
    the analysis, asks, prints that it exits and returns; it creates no
    client, sends no request, executes nothing and writes nothing. *)
Theorem nothing_without_consent script_analysis file_path w answer :
  stdin w consent_prompt = Done answer ->
  lower (strip answer) <> "y" ->
  create_tools_from_analysis script_analysis file_path w []
  = (Done tt,
     [Printed (nl ++ "--- AI Analysis of Python Script ---");
      Printed (str_optional script_analysis);
      Asked consent_prompt;
      Printed "Exiting without modifications."]).
Proof.
  intros Hin Hno. rewrite create_tools_run. cbv zeta. rewrite Hin.
  destruct (String.eqb (lower (strip answer)) "y") eqn:Hy.
  - apply String.eqb_eq in Hy. contradiction.
  - reflexivity.
Qed.

Lemma nothing_without_consent_witness :
  create_tools_from_analysis (Some "analysis") "script.py" world_declined []
  = (Done tt,
     [Printed (nl ++ "--- AI Analysis of Python Script ---");
      Printed "analysis";
      Asked consent_prompt;
      Printed "Exiting without modifications."]).
Proof.
  apply (nothing_without_consent (Some "analysis") "script.py" world_declined
           "no").
  - reflexivity.
  - discriminate.
Defined.

(** ** The path of the tools file *)

Lemma replace_without_occurrence old new s :
  contains old s = false -> replace old new s = s.
Proof.
  unfold replace. induction s as [|c s IH]; [reflexivity|].
  rewrite contains_unfold. intros H.
  apply orb_false_iff in H as [Hp Hc].
  cbn [replace_from]. rewrite Hp. now rewrite (IH Hc).
Qed.

Lemma prefix_nil s : String.prefix "" s = true.
Proof. now destruct s. Qed.

(** Whether [".py"] starts a string is decided by its first three
    characters. *)
Lemma prefix_py_three a b c r r' :
  String.prefix ".py" (String a (String b (String c r)))
  = String.prefix ".py" (String a (String b (String c r'))).
Proof.
  cbn [String.prefix]. destruct (ascii_dec "." a); [|reflexivity].
  destruct (ascii_dec "p" b); [|reflexivity].
  destruct (ascii_dec "y" c); [|reflexivity].
  now rewrite !prefix_nil.
Qed.

Lemma replace_py_suffix stem :
  contains ".py" (stem ++ ".p") = false ->
  replace ".py" "_tools.py" (stem ++ ".py") = stem ++ "_tools.py".
Proof.
  unfold replace. induction stem as [|c stem IH]; [reflexivity|].
  rewrite contains_unfold. intros H.
  apply orb_false_iff in H as [Hp Hc].
  change (String c stem ++ ".py") with (String c (stem ++ ".py")).
  cbn [replace_from].
  assert (Hp' : String.prefix ".py" (String c (stem ++ ".py")) = false).
  { destruct stem as [|c2 [|c3 s3]].
    - cbn [append String.prefix].
      destruct (ascii_dec "." c); [|reflexivity].
      destruct (ascii_dec "p" "."); [discriminate | reflexivity].
    - cbn [append String.prefix].
      destruct (ascii_dec "." c); [|reflexivity].
      destruct (ascii_dec "p" c2); [|reflexivity].
      destruct (ascii_dec "y" "."); [discriminate | reflexivity].
    - change (String c (String c2 (String c3 s3) ++ ".py"))
        with (String c (String c2 (String c3 (s3 ++ ".py")))).
      rewrite (prefix_py_three c c2 c3 _ (s3 ++ ".p")). exact Hp. }
  rewrite Hp'. simpl. now rewrite (IH Hc).
Qed.

(** X15.  The path of the tools file.  When the path of the script
    contains no [".py"], the tools are written to that very path, over
    the script; when it ends in [".py"] and has no other [".py"], its
    extension becomes ["_tools.py"]. *)
Theorem tools_file_path file_path :
  (contains ".py" file_path = false ->
   replace ".py" "_tools.py" file_path = file_path)
  /\ (forall stem,
         file_path = stem ++ ".py" ->
         contains ".py" (stem ++ ".p") = false ->
         replace ".py" "_tools.py" file_path = stem ++ "_tools.py").
Proof.
  split.
  - apply replace_without_occurrence.
  - intros stem -> H. now apply replace_py_suffix.
Qed.

Example tools_file_path_examples :
  replace ".py" "_tools.py" "script.py" = "script_tools.py"
  /\ replace ".py" "_tools.py" "script" = "script"
  /\ replace ".py" "_tools.py" "my.pyutils/run.py"
     = "my_tools.pyutils/run_tools.py".
Proof. repeat split. Qed.


(** ** The script *)

Lemma main_run w :
  main w []
  = match stdin w "Enter the path to the Python script: " with
    | Done answer =>
        try_except
          (script_analysis <- analyze_python_script (strip answer) ;;
           create_tools_from_analysis script_analysis (strip answer))
          (fun e => print ("Error: " ++ exc_str e))
          w [Asked "Enter the path to the Python script: "]
    | Failed e => (Failed e, [Asked "Enter the path to the Python script: "])
    end.
Proof.
  unfold main. cbn [bind Monad_IO]. unfold input at 1. cbn [app].
  now destruct (stdin w "Enter the path to the Python script: ").
Qed.

(** X16.  The script reports a file that it cannot read instead of
    raising.  When the file at the path that the user gives, stripped,
    does not exist, the script prints that it is not found and ends;
    when it exists and reading it raises an exception that derives from
    [Exception], the script prints the text of the exception and ends.
    In both cases it creates no client and sends no request. *)
Theorem main_reports_errors w answer :
  stdin w "Enter the path to the Python script: " = Done answer ->
  (path_exists w (strip answer) = false ->
   main w []
   = (Done tt,
      [Asked "Enter the path to the Python script: ";
       Printed ("Error: File not found: " ++ strip answer)]))
  /\ (forall e,
         path_exists w (strip answer) = true ->
         read_text w (strip answer) = Failed e ->
         exc_is_Exception e = true ->
         main w []
         = (Done tt,
            [Asked "Enter the path to the Python script: ";
             FileRead (strip answer);
             Printed ("Error: " ++ exc_str e)])).
Proof.
  intros Hin. rewrite main_run, Hin. split.
  - intros Hmissing. unfold try_except, analyze_python_script.
    cbn [bind Monad_IO]. unfold read_python_file at 1.
    rewrite Hmissing. reflexivity.
  - intros e Hexists Hread He. unfold try_except, analyze_python_script.
    cbn [bind Monad_IO]. unfold read_python_file at 1.
    rewrite Hexists, Hread. cbn [negb app]. rewrite He. reflexivity.
Qed.

Lemma main_reports_errors_witness :
  (path_exists world_no_file (strip " missing.py") = false ->
   main world_no_file []
   = (Done tt,
      [Asked "Enter the path to the Python script: ";
       Printed "Error: File not found: missing.py"]))
  /\ (forall e,
         path_exists world_no_file (strip " missing.py") = true ->
         read_text world_no_file (strip " missing.py") = Failed e ->
         exc_is_Exception e = true ->
         main world_no_file []
         = (Done tt,
            [Asked "Enter the path to the Python script: ";
             FileRead (strip " missing.py");
             Printed ("Error: " ++ exc_str e)])).
Proof.
  apply (main_reports_errors world_no_file " missing.py"). reflexivity.
Defined.

(** The path is stripped of the white space of Unicode before the file
    is looked for. *)
Example main_strips_path :
  main
    {| stdin := fun _ => Done (utf8 [194; 160; 97; 46; 112; 121; 226; 128; 137]);
       new_client := Done tt;
       completion := fun _ => Done None;
       exec_values := fun _ => Done [];
       path_exists := fun path => negb (String.eqb path "a.py");
       read_text := fun _ => Done "";
       open_for_writing := fun _ => Done tt |}
    []
  = (Done tt,
     [Asked "Enter the path to the Python script: ";
      Printed "Error: File not found: a.py"]).
Proof. reflexivity. Qed.
(** ** [analyze_and_improve_function] *)

(** X17.  [analyze_and_improve_function] guards [inspect.getsource]: a
    failure to retrieve the source text is returned as a message and is
    not raised, and then no client is created and no request is sent; the
    client is created exactly when the source text was retrieved.  The
    only exceptions that leave the function are those of the client and
    of the request. *)
Theorem analyze_and_improve_guards_getsource func w :
  (forall e,
      fn_source func = Raise e ->
      analyze_and_improve_function func w []
      = (Done (Some ("Error retrieving function source: " ++ exn_str e)), []))
  /\ (In ClientCreated (snd (analyze_and_improve_function func w []))
      <-> exists func_source, fn_source func = Return func_source)
  /\ (forall e,
         fst (analyze_and_improve_function func w []) = Failed e ->
         new_client w = Failed e
         \/ exists request, completion w request = Failed e).
Proof.
  unfold analyze_and_improve_function.
  destruct (fn_source func) as [src|e0].
  - split; [discriminate|]. split.
    + split; [intros _; now exists src|]. intros _.
      cbn [bind Monad_IO]. unfold OpenAI at 1.
      destruct (new_client w).
      * unfold chat_completions_create. cbn [snd app]. now left.
      * now left.
    + intros e. cbn [bind Monad_IO]. unfold OpenAI at 1.
      destruct (new_client w) as [[]|e1].
      * unfold chat_completions_create. cbn [fst].
        intros H. right. eexists. exact H.
      * cbn [fst]. intros [= <-]. now left.
  - split; [now intros e [= <-]|]. split.
    + split; [intros [] | intros [src H]; discriminate H].
    + discriminate.
Qed.

Lemma tools_file_path_witness :
  replace ".py" "_tools.py" "script" = "script"
  /\ replace ".py" "_tools.py" ("script" ++ ".py") = "script" ++ "_tools.py".
Proof.
  split.
  - apply (proj1 (tools_file_path "script")). reflexivity.
  - apply (proj2 (tools_file_path ("script" ++ ".py")) "script");
      reflexivity.
Defined.
